(** * skyportal/models/localization.py: the Localization data model

    A shallow embedding of the [Localization] and [LocalizationTile]
    models: the multiresolution HEALPix columns, the derived views
    ([is_3d], [table_2d], [table], [flat_2d], [flat], [center]) and the
    uniqueness constraints of the tile table.

    Python calls that may raise are written in an error monad; the
    astropy / healpy / ligo.skymap / dustmaps entry points that the
    module calls but does not define are either written out ([Table],
    [np.asarray], [healpy.reorder], [healpy.nside2order]) or fields of
    the class [Libraries]. *)

From Stdlib Require Import ZArith List Lia Bool PrimFloat Uint63.
From Stdlib Require Import FloatOps SpecFloat QArith Qabs Lqa.
From stdpp Require Import gmap strings list fin_maps.

Local Open Scope Z_scope.

(** ** Exceptions and the error monad *)

(** A raised Python exception (an instance of [Exception]), kept by the
    name of its class. *)
Inductive exn : Type :=
| ValueError
| TypeError
| KeyError
| IndexError
| OverflowError
| IntegrityError
| InvalidTileId
| OtherError (name : string).

Inductive result (A : Type) : Type :=
| Ok (a : A)
| Raise (e : exn).
Arguments Ok {A} a.
Arguments Raise {A} e.

#[global] Instance result_ret : MRet result := fun A a => Ok a.
#[global] Instance result_bind : MBind result := fun A B k r =>
  match r with
  | Ok a => k a
  | Raise e => Raise e
  end.
#[global] Instance result_fmap : FMap result := fun A B f r =>
  match r with
  | Ok a => Ok (f a)
  | Raise e => Raise e
  end.

(** [try: body except Exception: handler]. *)
Definition try_except {A} (body : result A) (handler : A) : A :=
  match body with
  | Ok a => a
  | Raise _ => handler
  end.

(** ** The spherical tile index *)

Module TileIndex.

(** Cells of the flat map at a resolution order: [nside2npix (2^order)]. *)
Definition npix (order : Z) : Z := 12 * 4 ^ order.

(** The finest order whose identifiers fit the 64-bit tile identifier. *)
Definition max_order : Z := 29.

Definition valid (order pixel : Z) : Prop :=
  0 <= order <= max_order /\ 0 <= pixel < npix order.

Definition validb (order pixel : Z) : bool :=
  (0 <=? order) && (order <=? max_order) && (0 <=? pixel) && (pixel <? npix order).

(** Modelled from the spec: the tile index ([encode], [decode]) is not
    part of the models file, which only stores the identifiers (column
    [uniq], "Multiresolution HEALPix UNIQ pixel index array").  The spec
    asks for a UNIQ-style identifier that jointly encodes order and pixel
    number; this is the HEALPix UNIQ layout, [4 * 4^order + pixel], and
    encoding fails with [InvalidTileId] outside the valid pairs. *)
Definition encode (order pixel : Z) : result Z :=
  if validb order pixel then Ok (4 * 4 ^ order + pixel) else Raise InvalidTileId.

(** Modelled from the spec: the inverse of [encode]; the order is read off
    the position of the leading bit pair, and decoding fails with
    [InvalidTileId] when the identifier is not that of a valid pair. *)
Definition decode (tileId : Z) : result (Z * Z) :=
  if (4 <=? tileId) && (tileId <? 4 * 4 ^ (max_order + 1)) then
    let order := Z.log2 tileId / 2 - 1 in
    Ok (order, tileId - 4 * 4 ^ order)
  else Raise InvalidTileId.

End TileIndex.

(** ** Arrays and tables (numpy, astropy) *)

(** A numpy array / astropy column: 64-bit integers or 64-bit floats. *)
Inductive Column : Type :=
| IntCol (l : list Z)
| FloatCol (l : list float).

Definition col_len (c : Column) : nat :=
  match c with
  | IntCol l => length l
  | FloatCol l => length l
  end.

(** The cells of a column, whatever its dtype. *)
Definition col_cells (c : Column) : list (Z + float) :=
  match c with
  | IntCol l => inl <$> l
  | FloatCol l => inr <$> l
  end.

Definition same_dtype (c1 c2 : Column) : Prop :=
  match c1, c2 with
  | IntCol _, IntCol _ | FloatCol _, FloatCol _ => True
  | _, _ => False
  end.

Definition int64 (z : Z) : bool := (- 2 ^ 63 <=? z) && (z <? 2 ^ 63).

(** [np.asarray(l, dtype=np.int64)]: a Python integer outside the signed
    64-bit range raises [OverflowError]. *)
Definition asarray_int64 (l : list Z) : result Column :=
  if forallb int64 l then Ok (IntCol l) else Raise OverflowError.

(** An astropy [Table]: named columns, in order. *)
Definition Table : Type := list (string * Column).

(** [Table(cols, names=names)]: the columns must agree in length
    ("Inconsistent data column lengths" is a [ValueError]). *)
Definition Table_init (cols : list Column) (names : list string) : result Table :=
  if negb (length names =? length cols)%nat then Raise ValueError
  else match cols with
       | [] => Ok []
       | c :: rest =>
           if forallb (fun c' => (col_len c' =? col_len c)%nat) rest
           then Ok (zip names cols)
           else Raise ValueError
       end.

(** [t[name]]. *)
Fixpoint getitem (t : Table) (name : string) : result Column :=
  match t with
  | [] => Raise KeyError
  | (n, c) :: rest => if String.eqb n name then Ok c else getitem rest name
  end.

(** [a[idxs]] with an index array: every index must be in range. *)
Fixpoint take {A} (a : list A) (idxs : list nat) : result (list A) :=
  match idxs with
  | [] => Ok []
  | i :: rest =>
      match a !! i with
      | Some x => xs ← take a rest; Ok (x :: xs)
      | None => Raise IndexError
      end
  end.

(** ** healpy pixel functions *)

Inductive ordering : Type := NESTED | RING.

(** [isnsideok(nside, nest=True)]: a power of two, from 1 to healpy's
    [max_nside = 2^29]. *)
Definition isnsideok_nest (nside : Z) : bool :=
  (0 <? nside) && (nside <=? 2 ^ 29) && (Z.land nside (nside - 1) =? 0).

(** [healpy.nside2order]: the bit length of [nside], less one. *)
Definition nside2order (nside : Z) : result Z :=
  if isnsideok_nest nside then Ok (Z.log2 nside) else Raise ValueError.

(** [isnpixok]: [npix] is [12 * nside^2] for an integer [nside]. *)
Definition isnpixok (npix : Z) : bool :=
  let nside := Z.sqrt (npix / 12) in 12 * nside * nside =? npix.

(** [healpy.npix2nside]. *)
Definition npix2nside (npix : Z) : result Z :=
  if isnpixok npix then Ok (Z.sqrt (npix / 12)) else Raise ValueError.

(** ** The library entry points the models file calls *)

(** What [center] reads off the [SkyCoord] of the posterior maximum:
    [coord.ra.deg], [coord.dec.deg], [coord.galactic.b.deg],
    [coord.galactic.l.deg]. *)
Record SkyCoord : Type := {
  ra_deg : float;
  dec_deg : float;
  galactic_b_deg : float;
  galactic_l_deg : float
}.

Class Libraries : Type := {
  (** [ligo.skymap.bayestar.rasterize(table, order)]: the multi-order
      table at one fixed order, rows in NESTED order, column
      [PROBDENSITY] turned into the per-pixel [PROB]. *)
  rasterize : Table -> Z -> result Table;
  (** [healpy.ring2nest(nside, ipix)] and [healpy.nest2ring(nside, ipix)]. *)
  ring2nest : Z -> nat -> nat;
  nest2ring : Z -> nat -> nat;
  (** [ligo.skymap.postprocess.posterior_max(prob)]. *)
  posterior_max : Column -> result SkyCoord;
  (** [dustmaps.sfd.SFDQuery()], the query [q(coord)] on the object it
      returns, and the builtin [float] on the value queried. *)
  SFDValue : Type;
  SFDQuery : result (SkyCoord -> result SFDValue);
  to_float : SFDValue -> result float
}.

Section Views.
Context `{L : Libraries}.

(** [healpy.reorder] on one map: [out[j] = m[ring2nest(nside, j)]] from
    NESTED to RING, [out[i] = m[nest2ring(nside, i)]] from RING to NESTED;
    the pixel functions want [nside] a power of two. *)
Definition reorder_list {A} (m : list A) (inp out : ordering) : result (list A) :=
  let npix := Z.of_nat (length m) in
  if (npix =? 0) || negb (isnpixok npix) then Raise TypeError
  else
    nside ← npix2nside npix;
    match inp, out with
    | NESTED, RING =>
        if isnsideok_nest nside then take m (ring2nest nside <$> seq 0 (length m))
        else Raise ValueError
    | RING, NESTED =>
        if isnsideok_nest nside then take m (nest2ring nside <$> seq 0 (length m))
        else Raise ValueError
    | _, _ => Ok m
    end.

Definition reorder (m : Column) (inp out : ordering) : result Column :=
  match m with
  | IntCol l => IntCol <$> reorder_list l inp out
  | FloatCol l => FloatCol <$> reorder_list l inp out
  end.

(** [healpy.reorder] on a sequence of maps: they must agree in length, and
    each one is reordered. *)
Definition reorder_seq (ms : list Column) (inp out : ordering) : result (list Column) :=
  match ms with
  | [] => Raise TypeError
  | m0 :: rest =>
      if forallb (fun m => (col_len m =? col_len m0)%nat) rest
      then mapM (fun m => reorder m inp out) ms
      else Raise TypeError
  end.

(** ** class Localization *)

(** The columns of a [Localization] row that the views read.  [uniq] and
    [probdensity] are [nullable=False]; the three distance arrays may be
    [None]. *)
Record Localization : Type := {
  sent_by_id : Z;
  dateobs : string;
  localization_name : option string;
  uniq : list Z;
  probdensity : list float;
  distmu : option (list float);
  distsigma : option (list float);
  distnorm : option (list float)
}.

(** [Localization(sent_by_id=..., ..., distnorm=...)].  The class body
    defines no [__init__] and no validator: the keyword constructor
    inherited from [Base] stores every column as it is passed. *)
Definition Localization_init (sent_by_id : Z) (dateobs : string)
    (localization_name : option string) (uniq : list Z) (probdensity : list float)
    (distmu distsigma distnorm : option (list float)) : result Localization :=
  Ok {| sent_by_id := sent_by_id; dateobs := dateobs;
        localization_name := localization_name;
        uniq := uniq; probdensity := probdensity;
        distmu := distmu; distsigma := distsigma; distnorm := distnorm |}.

(** HEALPix resolution used for flat (non-multiresolution) operations. *)
Definition nside : Z := 512.

Definition is_not_None {A} (o : option A) : bool :=
  match o with
  | Some _ => true
  | None => false
  end.

Definition is_3d (self : Localization) : bool :=
  is_not_None (distmu self) && is_not_None (distsigma self) && is_not_None (distnorm self).

(** A Python list handed to [Table] as a column; [None] is no column. *)
Definition as_column (o : option (list float)) : result Column :=
  match o with
  | Some l => Ok (FloatCol l)
  | None => Raise TypeError
  end.

(** Get multiresolution HEALPix dataset, probability density only. *)
Definition table_2d (self : Localization) : result Table :=
  u ← asarray_int64 (uniq self);
  Table_init [u; FloatCol (probdensity self)] ["UNIQ"; "PROBDENSITY"]%string.

(** Get multiresolution HEALPix dataset, probability density and distance. *)
Definition table (self : Localization) : result Table :=
  if is_3d self then
    u ← asarray_int64 (uniq self);
    mu ← as_column (distmu self);
    sigma ← as_column (distsigma self);
    norm ← as_column (distnorm self);
    Table_init [u; FloatCol (probdensity self); mu; sigma; norm]
      ["UNIQ"; "PROBDENSITY"; "DISTMU"; "DISTSIGMA"; "DISTNORM"]%string
  else table_2d self.

(** Get flat resolution HEALPix dataset, probability density only. *)
Definition flat_2d (self : Localization) : result Column :=
  order ← nside2order nside;
  t2 ← table_2d self;
  t ← rasterize t2 order;
  result ← getitem t "PROB";
  reorder result NESTED RING.

(** Get flat resolution HEALPix dataset, probability density and distance. *)
Definition flat (self : Localization) : result (list Column) :=
  if is_3d self then
    order ← nside2order nside;
    t3 ← table self;
    t ← rasterize t3 order;
    prob ← getitem t "PROB";
    mu ← getitem t "DISTMU";
    sigma ← getitem t "DISTSIGMA";
    norm ← getitem t "DISTNORM";
    reorder_seq [prob; mu; sigma; norm] NESTED RING
  else
    a ← flat_2d self; Ok [a].

(** [float(dustmaps.sfd.SFDQuery()(coord))]. *)
Definition dust_ebv (coord : SkyCoord) : result float :=
  q ← SFDQuery; v ← q coord; to_float v.

(** Get information about the center of the localization.  The dict maps
    each key to a float or to [None]. *)
Definition center (self : Localization) : result (gmap string (option float)) :=
  prob ← flat_2d self;
  coord ← posterior_max prob;
  let center_info : gmap string (option float) := ∅ in
  let center_info := <["ra" := Some (ra_deg coord)]> center_info in
  let center_info := <["dec" := Some (dec_deg coord)]> center_info in
  let center_info := <["gal_lat" := Some (galactic_b_deg coord)]> center_info in
  let center_info := <["gal_lon" := Some (galactic_l_deg coord)]> center_info in
  let ebv :=
    try_except (ebv ← dust_ebv coord; Ok (Some ebv)) None in
  let center_info := <["ebv" := ebv]> center_info in
  Ok center_info.

End Views.

(** ** class LocalizationTile *)

Module LocalizationTile.

(** A single tile within a skymap.  [id] is the row identifier every
    [Base] model carries ([LocalizationTile.id] in [__table_args__]);
    [healpix] is the [healpix_alchemy.Tile] range of the tile. *)
Record t : Type := {
  id : Z;
  localization_id : Z;
  probdensity : float;
  healpix : Z * Z
}.

(** The columns declared [primary_key=True]. *)
Definition primary_key (r : t) : Z * Z * (Z * Z) :=
  (id r, localization_id r, healpix r).

(** [sa.Index('localizationtile_id_healpix_index', LocalizationTile.id,
    LocalizationTile.healpix, unique=True)]. *)
Definition localizationtile_id_healpix_index (r : t) : Z * (Z * Z) :=
  (id r, healpix r).

(** The pair the tiles of one map are looked up by. *)
Definition localization_tile (r : t) : Z * (Z * Z) :=
  (localization_id r, healpix r).

(** Adding a row, as far as the uniqueness constraints go: the database
    refuses it with an [IntegrityError] when the primary key or the unique
    index is already taken.  The foreign key on [localization_id] and the
    normal form of the [healpix] range are not checked here, so every row
    the table accepts is accepted, with the same resulting rows. *)
Definition insert (tbl : list t) (r : t) : result (list t) :=
  if bool_decide (primary_key r ∈ primary_key <$> tbl)
     || bool_decide (localizationtile_id_healpix_index r
                       ∈ localizationtile_id_healpix_index <$> tbl)
  then Raise IntegrityError
  else Ok (tbl ++ [r]).

(** [ondelete="CASCADE"]: deleting a localization deletes its tiles. *)
Definition delete_localization (tbl : list t) (lid : Z) : list t :=
  filter (fun r => localization_id r ≠ lid) tbl.

(** The states of the tile table. *)
Inductive reachable : list t -> Prop :=
| reachable_empty : reachable []
| reachable_insert tbl r tbl' :
    reachable tbl -> insert tbl r = Ok tbl' -> reachable tbl'
| reachable_delete tbl lid :
    reachable tbl -> reachable (delete_localization tbl lid).

End LocalizationTile.

(** ** Properties of maps named by the specification *)

Definition nonnegative (d : float) : Prop := PrimFloat.leb 0 d = true.

(** A valid pair of arrays: equal lengths, unique identifiers,
    non-negative densities. *)
Definition valid_map (uniq : list Z) (probdensity : list float) : Prop :=
  length uniq = length probdensity /\ NoDup uniq /\ Forall nonnegative probdensity.

(** The identifiers fit the [BigInteger] column. *)
Definition storable (uniq : list Z) : Prop := Forall (fun u => int64 u = true) uniq.

(** Tile [i] of the map has a value in the distance array [a]. *)
Definition tile_has (a : option (list float)) (i : nat) : Prop :=
  exists l v, a = Some l /\ l !! i = Some v.

(** Some tile of the map lacks one of the three distance quantities. *)
Definition some_tile_lacks_distance (self : Localization) : Prop :=
  exists i, (i < length (uniq self))%nat /\
    ~ (tile_has (distmu self) i /\ tile_has (distsigma self) i /\
       tile_has (distnorm self) i).

(** The flat output is the nested array read through the ring index:
    cell [j] of [ring] is cell [ring2nest nside j] of [nested], for the
    [nside] of the array's length. *)
Definition ring_of_nested `{L : Libraries} (nested ring : Column) : Prop :=
  same_dtype nested ring /\ col_len ring = col_len nested /\
  exists nside', npix2nside (Z.of_nat (col_len nested)) = Ok nside' /\
    forall j, (j < col_len ring)%nat ->
      col_cells ring !! j = col_cells nested !! ring2nest nside' j.

(** The contract of [rasterize] used below: asked for an order that is
    not negative, the table it returns has one row per pixel of that
    order, [nside2npix(2^order)].  (A negative order stands for the
    finest order of the table and is not asked for by the views.) *)
Definition rasterize_npix `{L : Libraries} : Prop :=
  forall t order t', 0 <= order -> rasterize t order = Ok t' ->
    Forall (fun nc => Z.of_nat (col_len nc.2) = TileIndex.npix order) t'.

(** ** A reference instance of the libraries

    An executable stand-in for the library entry points, used to run the
    views on concrete maps. *)

Module Reference.

(** HEALPix [nest2ring]: the face, the position in the face from the
    de-interleaved bits, then the ring and the position in the ring. *)
Definition jrll (face : Z) : Z := 2 + face / 4.

Definition jpll (face : Z) : Z :=
  if (4 <=? face) && (face <? 8) then 2 * (face mod 4) else 2 * (face mod 4) + 1.

Fixpoint even_bits (width : nat) (v : Z) : Z :=
  match width with
  | O => 0
  | S w => Z.land v 1 + 2 * even_bits w (Z.shiftr v 2)
  end.

Definition nest2ring_Z (nside ipnest : Z) : Z :=
  let npface := nside * nside in
  let face_num := ipnest / npface in
  let ipf := ipnest mod npface in
  let ix := even_bits 32 ipf in
  let iy := even_bits 32 (Z.shiftr ipf 1) in
  let jr := jrll face_num * nside - (ix + iy) - 1 in
  let nl4 := 4 * nside in
  let ncap := 2 * nside * (nside - 1) in
  let '(nr, n_before, kshift) :=
    if jr <? nside then (jr, 2 * jr * (jr - 1), 0)
    else if 3 * nside <? jr then
      let nr := nl4 - jr in (nr, 12 * npface - 2 * (nr + 1) * nr, 0)
    else (nside, ncap + (jr - nside) * nl4, Z.land (jr - nside) 1) in
  let jp := (jpll face_num * nr + (ix - iy) + 1 + kshift) / 2 in
  let jp := if nl4 <? jp then jp - nl4 else if jp <? 1 then jp + nl4 else jp in
  n_before + jp - 1.

Definition nest2ring (nside : Z) (i : nat) : nat :=
  Z.to_nat (nest2ring_Z nside (Z.of_nat i)).

(** [ring2nest] as the inverse of [nest2ring], by search. *)
Definition ring2nest (nside : Z) (j : nat) : nat :=
  match List.find (fun i => (nest2ring nside i =? j)%nat)
          (seq 0 (Z.to_nat (12 * nside * nside))) with
  | Some i => i
  | None => 0%nat
  end.

(** The nested cell [p] of order [order] lies in the tile [u]. *)
Definition tile_covers (order p u : Z) : bool :=
  match TileIndex.decode u with
  | Ok (o, ip) => (o <=? order) && (p / 4 ^ (order - o) =? ip)
  | Raise _ => false
  end.

(** The value a cell takes: that of the last tile written over it, zero
    where no tile was written. *)
Definition raster_cell (order : Z) (uniq : list Z) (vals : list float) (p : Z) : float :=
  match List.find (fun uv => tile_covers order p uv.1) (rev (zip uniq vals)) with
  | Some uv => uv.2
  | None => 0%float
  end.

Definition raster_column (order : Z) (uniq : list Z) (vals : list float) : list float :=
  (fun p => raster_cell order uniq vals (Z.of_nat p))
    <$> seq 0 (Z.to_nat (TileIndex.npix order)).

(** The solid angle of one pixel, [4 pi / npix], with the binary64 [pi]. *)
Definition pixarea (order : Z) : float :=
  (4 * 0x1.921fb54442d18p+1 / PrimFloat.of_uint63 (Uint63.of_Z (TileIndex.npix order)))%float.

Definition not_finer (order u : Z) : bool :=
  match TileIndex.decode u with
  | Ok (o, _) => o <=? order
  | Raise _ => false
  end.

(** The finest order among the tiles. *)
Definition finest_order (uniq : list Z) : Z :=
  foldr (fun u acc => match TileIndex.decode u with
                      | Ok (o, _) => Z.max o acc
                      | Raise _ => acc
                      end) 0 uniq.

(** The multi-order table at one order.  A negative order stands for the
    finest order of the table; an empty table has none ([ValueError]).
    Tiles finer than the order, which the library averages, are outside
    this instance: it stops on them with [NotImplementedError]. *)
Definition rasterize (t : Table) (order : Z) : result Table :=
  u ← getitem t "UNIQ";
  d ← getitem t "PROBDENSITY";
  match u, d with
  | IntCol [], FloatCol _ => Raise ValueError
  | IntCol uniq, FloatCol dens =>
      let order := if order <? 0 then finest_order uniq else order in
      if forallb (not_finer order) uniq then
        let prob := (fun x => (x * pixarea order)%float) <$> raster_column order uniq dens in
        let dist :=
          flat_map (fun name =>
                      match getitem t name with
                      | Ok (FloatCol c) => [(name, FloatCol (raster_column order uniq c))]
                      | _ => []
                      end)
                   ["DISTMU"; "DISTSIGMA"; "DISTNORM"]%string in
        Ok (("PROB"%string, FloatCol prob) :: dist)
      else Raise (OtherError "NotImplementedError")
  | _, _ => Raise TypeError
  end.

(** The instance, for a given posterior maximum and dust query. *)
Definition libraries (peak : Column -> result SkyCoord)
    (sfd : result (SkyCoord -> result float)) : Libraries :=
  Build_Libraries rasterize ring2nest nest2ring peak float sfd (fun v => Ok v).

End Reference.

(** ** Example maps *)

(** The twelve base tiles (order 0), uniform density [1 / (4 pi)]
    (binary64 [0.07957747154594767]). *)
Definition uniform_sky : Localization :=
  {| sent_by_id := 1; dateobs := "2019-04-25T08:18:05";
     localization_name := Some "bayestar.fits.gz"%string;
     uniq := [4; 5; 6; 7; 8; 9; 10; 11; 12; 13; 14; 15];
     probdensity := repeat 0x1.45f306dc9c883p-4%float 12;
     distmu := None; distsigma := None; distnorm := None |}.

(** The same tiles with the three distance arrays. *)
Definition uniform_sky_3d : Localization :=
  {| sent_by_id := 1; dateobs := "2019-04-25T08:18:05";
     localization_name := Some "bayestar.fits.gz"%string;
     uniq := [4; 5; 6; 7; 8; 9; 10; 11; 12; 13; 14; 15];
     probdensity := repeat 0x1.45f306dc9c883p-4%float 12;
     distmu := Some (repeat 100%float 12);
     distsigma := Some (repeat 10%float 12);
     distnorm := Some (repeat 1%float 12) |}.

(** One tile whose [distmu] entry is missing: the array is there, empty. *)
Definition short_distmu : Localization :=
  {| sent_by_id := 1; dateobs := "2019-04-25T08:18:05";
     localization_name := None;
     uniq := [4]; probdensity := [0x1.45f306dc9c883p-4%float];
     distmu := Some []; distsigma := Some [10%float]; distnorm := Some [1%float] |}.

Definition peak0 : SkyCoord :=
  {| ra_deg := 45%float; dec_deg := 41.75%float;
     galactic_b_deg := (-14.5)%float; galactic_l_deg := 145.5%float |}.

Definition tile_row (row_id : Z) : LocalizationTile.t :=
  {| LocalizationTile.id := row_id; LocalizationTile.localization_id := 7;
     LocalizationTile.probdensity := 0x1.45f306dc9c883p-4%float;
     LocalizationTile.healpix := (0, 4 ^ 29) |}.

(** Two rows of localization 7 for the base tile 0 (UNIQ 4). *)
Definition duplicate_tiles : list LocalizationTile.t := [tile_row 1; tile_row 2].

(** The libraries with the dust maps missing from [data_dir]: building
    the query object fails. *)
Definition offline_libraries : Libraries :=
  Reference.libraries (fun _ => Ok peak0) (Raise (OtherError "FileNotFoundError")).


(** ** The class-level expression of [is_3d] *)

(** [col.isnot(None)], SQL [col IS NOT NULL]: a truth value that is never
    NULL.  SQL truth values are [option bool], [None] for NULL. *)
Definition isnot_None {A} (col : option A) : option bool := Some (is_not_None col).

(** SQL [AND]: false when an operand is false, else NULL when an operand
    is NULL. *)
Definition sql_and (a b : option bool) : option bool :=
  match a, b with
  | Some false, _ | _, Some false => Some false
  | Some true, Some true => Some true
  | _, _ => None
  end.

(** [sa.and_(clause, ...)]. *)
Definition and_ (clauses : list (option bool)) : option bool :=
  foldr sql_and (Some true) clauses.

(** [@is_3d.expression]: the flag as a SQL expression over a row. *)
Definition is_3d_expression (cls : Localization) : option bool :=
  and_ [isnot_None (distmu cls); isnot_None (distsigma cls); isnot_None (distnorm cls)].

(** [query.filter(expr)]: the rows on which the expression is TRUE. *)
Definition sql_filter (expr : Localization -> option bool)
    (rows : list Localization) : list Localization :=
  filter (fun row => expr row = Some true) rows.

(** ** Adding several tiles *)

(** The rows added one after the other; the first refusal is raised. *)
Fixpoint insert_rows (tbl rows : list LocalizationTile.t)
    : result (list LocalizationTile.t) :=
  match rows with
  | [] => Ok tbl
  | r :: rest => tbl' ← LocalizationTile.insert tbl r; insert_rows tbl' rest
  end.

(** ** More example maps and libraries *)

(** Five identifiers, four densities. *)
Definition mismatched : Localization :=
  {| sent_by_id := 1; dateobs := "2019-04-25T08:18:05";
     localization_name := None;
     uniq := [4; 5; 6; 7; 8];
     probdensity := repeat 0x1.45f306dc9c883p-4%float 4;
     distmu := None; distsigma := None; distnorm := None |}.

(** A tile of another localization (3), on the base tile 1 (UNIQ 5). *)
Definition other_tile : LocalizationTile.t :=
  {| LocalizationTile.id := 9; LocalizationTile.localization_id := 3;
     LocalizationTile.probdensity := 0x1.45f306dc9c883p-4%float;
     LocalizationTile.healpix := (4 ^ 29, 2 * 4 ^ 29) |}.

(** The libraries with the dust maps installed: the query returns
    [E(B-V) = 0.03125]. *)
Definition online_libraries : Libraries :=
  Reference.libraries (fun _ => Ok peak0) (Ok (fun _ => Ok 0.03125%float)).

(** The libraries with a [posterior_max] that raises. *)
Definition no_peak_libraries : Libraries :=
  Reference.libraries (fun _ => Raise ValueError) (Ok (fun _ => Ok 0.03125%float)).

(** ** Probability mass *)

(** The exact value of a binary64 float, [(-1)^s * m * 2^e]; zero stands
    for the infinities and NaN, which [is_finite] tells apart. *)
Definition float_Q (x : float) : Q :=
  match Prim2SF x with
  | S754_finite s m e => ((if s then -1 else 1) * inject_Z (Zpos m) * 2 ^ e)%Q
  | _ => 0%Q
  end.

Definition is_finite (x : float) : bool :=
  match Prim2SF x with
  | S754_zero _ | S754_finite _ _ _ => true
  | _ => false
  end.

Definition Qsum (l : list Q) : Q := foldr Qplus 0%Q l.

(** The binary64 [pi], [0x1.921fb54442d18p+1]. *)
Definition pi64 : Q := (884279719003555 # 281474976710656)%Q.

(** The solid angle of a pixel of a given order, [4 pi / npix]. *)
Definition solid_angle (order : Z) : Q :=
  (4 * pi64 / inject_Z (TileIndex.npix order))%Q.

(** The order of a tile, read off its UNIQ identifier. *)
Definition tile_order (u : Z) : Z :=
  match TileIndex.decode u with
  | Ok (o, _) => o
  | Raise _ => 0
  end.

(** The nested cell [p] of order [order] lies in the tile [u]. *)
Definition cell_in_tile (order p u : Z) : bool :=
  match TileIndex.decode u with
  | Ok (o, ip) => (o <=? order) && (p / 4 ^ (order - o) =? ip)
  | Raise _ => false
  end.

(** The probability mass of the source tiles: the sum of density times
    tile solid angle. *)
Definition source_mass (ids : list Z) (dens : list float) : Q :=
  Qsum ((fun ud => (float_Q ud.2 * solid_angle (tile_order ud.1))%Q) <$> zip ids dens).

(** The sum of the cells of a flat array. *)
Definition flat_mass (cells : list float) : Q := Qsum (float_Q <$> cells).

(** The sum of cell value times cell solid angle: the flat array read as
    a density. *)
Definition flat_density_mass (order : Z) (cells : list float) : Q :=
  Qsum ((fun x => (float_Q x * solid_angle order)%Q) <$> cells).

(** Equal within the relative tolerance [1e-6]. *)
Definition within_tolerance (x y : Q) : Prop :=
  (Qabs (x - y) <= (1 # 1000000) * Qabs y)%Q.

(** The tiles are valid and none is finer than the order. *)
Definition tiles_valid (order : Z) (ids : list Z) : Prop :=
  Forall (fun u => exists o ip, TileIndex.decode u = Ok (o, ip) /\ o <= order) ids.

(** No cell of the order lies in two tiles of the map. *)
Definition tiles_disjoint (order : Z) (ids : list Z) : Prop :=
  forall (i j : nat) (u v p : Z),
    ids !! i = Some u -> ids !! j = Some v ->
    cell_in_tile order p u = true -> cell_in_tile order p v = true -> i = j.

(** The densities are finite and not negative. *)
Definition densities_ok (dens : list float) : Prop :=
  Forall (fun d => is_finite d = true /\ (0 <= float_Q d)%Q) dens.

(** What [rasterize] computed for this map, as far as the mass goes: one
    finite cell per pixel of the order; a cell inside a tile holds the
    density of the tile times the solid angle of the cell, within the
    tolerance; a cell outside every tile holds zero. *)
Definition cells_accurate (order : Z) (ids : list Z) (dens cells : list float) : Prop :=
  Z.of_nat (length cells) = TileIndex.npix order /\
  forall (p : nat) (x : float), cells !! p = Some x ->
    is_finite x = true /\
    (forall (i : nat) (u : Z) (d : float),
       ids !! i = Some u -> dens !! i = Some d ->
       cell_in_tile order (Z.of_nat p) u = true ->
       within_tolerance (float_Q x) (float_Q d * solid_angle order)%Q) /\
    ((forall u, u ∈ ids -> cell_in_tile order (Z.of_nat p) u = false) ->
     (float_Q x == 0)%Q).

(** [ring2nest] at a resolution numbers every pixel once. *)
Definition ring2nest_permutes `{L : Libraries} (nside' : Z) : Prop :=
  Permutation (ring2nest nside' <$> seq 0 (Z.to_nat (12 * nside' * nside')))
              (seq 0 (Z.to_nat (12 * nside' * nside'))).

(** The reference instance with the ring index taken as the nested one
    (as it is at [nside = 1]): a numbering of the pixels that can be
    checked at every resolution. *)
Definition unordered_libraries : Libraries :=
  Build_Libraries Reference.rasterize (fun _ j => j) (fun _ j => j)
    (fun _ => Ok peak0) float (Raise (OtherError "FileNotFoundError")) (fun v => Ok v).

(** ** The definitions at work *)

Lemma bind_Ok {A B} (r : result A) (k : A -> result B) (b : B) :
  r ≫= k = Ok b <-> exists a, r = Ok a /\ k a = Ok b.
Proof.
  destruct r as [a|e]; simpl; split.
  - intros H. exists a. auto.
  - intros (a' & Ha & Hk). inversion Ha. subst. exact Hk.
  - discriminate.
  - intros (a' & Ha & _). discriminate.
Qed.

Example encode_base_tile : TileIndex.encode 0 0 = Ok 4.
Proof. reflexivity. Qed.

Example encode_order_9 : TileIndex.encode 9 100 = Ok 1048676.
Proof. reflexivity. Qed.

Example encode_pixel_out_of_range : TileIndex.encode 0 12 = Raise InvalidTileId.
Proof. reflexivity. Qed.

Example decode_order_9 : TileIndex.decode 1048676 = Ok (9, 100).
Proof. reflexivity. Qed.

Example decode_invalid : TileIndex.decode 3 = Raise InvalidTileId.
Proof. reflexivity. Qed.

Example nside2order_512 : nside2order 512 = Ok 9.
Proof. reflexivity. Qed.

Example nside2order_not_power_of_two : nside2order 500 = Raise ValueError.
Proof. reflexivity. Qed.

Example npix2nside_order_9 : npix2nside 3145728 = Ok 512.
Proof. reflexivity. Qed.

Example npix2nside_power_of_four : npix2nside (4 ^ 9) = Raise ValueError.
Proof. reflexivity. Qed.

Example asarray_int64_overflow : asarray_int64 [4; 2 ^ 63] = Raise OverflowError.
Proof. reflexivity. Qed.

Example table_2d_uniform_sky :
  table_2d uniform_sky
  = Ok [("UNIQ"%string, IntCol [4; 5; 6; 7; 8; 9; 10; 11; 12; 13; 14; 15]);
        ("PROBDENSITY"%string, FloatCol (repeat 0x1.45f306dc9c883p-4%float 12))].
Proof. reflexivity. Qed.

Example table_short_distmu : table short_distmu = Raise ValueError.
Proof. reflexivity. Qed.

Example is_3d_examples :
  is_3d uniform_sky = false /\ is_3d uniform_sky_3d = true /\ is_3d short_distmu = true.
Proof. repeat split. Qed.

(** HEALPix [nest2ring] at [nside = 2]. *)
Example nest2ring_nside_2 :
  Reference.nest2ring 2 <$> seq 0 48
  = [13; 5; 4; 0; 15; 7; 6; 1; 17; 9; 8; 2; 19; 11; 10; 3; 28; 20; 27; 12;
     30; 22; 21; 14; 32; 24; 23; 16; 34; 26; 25; 18; 44; 37; 36; 29; 45;
     39; 38; 31; 46; 41; 40; 33; 47; 43; 42; 35]%nat.
Proof. vm_compute. reflexivity. Qed.

(** Reordering the nested cell numbers of [nside = 2] lists, ring by
    ring, the nested cell at each ring position. *)
Example reorder_nside_2 :
  reorder_list (L := offline_libraries) (seq 0 48) NESTED RING
  = Ok [3; 7; 11; 15; 2; 1; 6; 5; 10; 9; 14; 13; 19; 0; 23; 4; 27; 8; 31; 12;
        17; 22; 21; 26; 25; 30; 29; 18; 16; 35; 20; 39; 24; 43; 28; 47; 34;
        33; 38; 37; 42; 41; 46; 45; 32; 36; 40; 44]%nat.
Proof. vm_compute. reflexivity. Qed.

Example reorder_bad_npix :
  reorder (L := offline_libraries) (IntCol [1; 2; 3; 4]) NESTED RING = Raise TypeError.
Proof. reflexivity. Qed.

(** The uniform sky at order 1: 48 cells of probability [1/48] each, up to
    rounding. *)
Example rasterize_uniform_order_1 :
  (t ← table_2d uniform_sky; rasterize (Libraries := offline_libraries) t 1)
  = Ok [("PROB"%string, FloatCol (repeat 0x1.5555555555555p-6%float 48))].
Proof. vm_compute. reflexivity. Qed.

(** A negative order stands for the finest order of the table; an empty
    table has none. *)
Example rasterize_uniform_finest_order :
  (t ← table_2d uniform_sky; rasterize (Libraries := offline_libraries) t (-1))
  = Ok [("PROB"%string, FloatCol (repeat 0x1.5555555555555p-4%float 12))].
Proof. vm_compute. reflexivity. Qed.

Example rasterize_empty_table :
  rasterize (Libraries := offline_libraries)
    [("UNIQ"%string, IntCol []); ("PROBDENSITY"%string, FloatCol [])] 9
  = Raise ValueError.
Proof. reflexivity. Qed.

Example insert_same_row_id :
  LocalizationTile.insert [tile_row 1] (tile_row 1) = Raise IntegrityError.
Proof. vm_compute. reflexivity. Qed.

Example insert_same_tile :
  LocalizationTile.insert [tile_row 1] (tile_row 2) = Ok duplicate_tiles.
Proof. vm_compute. reflexivity. Qed.

Lemma validb_spec order pixel :
  TileIndex.validb order pixel = true <-> TileIndex.valid order pixel.
Proof.
  unfold TileIndex.validb, TileIndex.valid.
  rewrite !andb_true_iff, !Z.leb_le, Z.ltb_lt. tauto.
Qed.

Lemma four_pow (k : Z) : 0 <= k -> 4 ^ k = 2 ^ (2 * k).
Proof. intros Hk. rewrite Z.pow_mul_r by lia. reflexivity. Qed.

Lemma uniq_bounds order pixel :
  TileIndex.valid order pixel ->
  2 ^ (2 * order + 2) <= 4 * 4 ^ order + pixel < 2 ^ (2 * order + 4).
Proof.
  intros [[Ho _] Hp]. unfold TileIndex.npix in Hp.
  rewrite four_pow in * by lia.
  replace (2 * order + 2) with (2 + 2 * order) by lia.
  replace (2 * order + 4) with (4 + 2 * order) by lia.
  rewrite !Z.pow_add_r by lia.
  change (2 ^ 2) with 4. change (2 ^ 4) with 16.
  assert (0 < 2 ^ (2 * order)) by (apply Z.pow_pos_nonneg; lia).
  lia.
Qed.

Lemma uniq_order order pixel :
  TileIndex.valid order pixel ->
  Z.log2 (4 * 4 ^ order + pixel) / 2 - 1 = order.
Proof.
  intros Hv. pose proof (uniq_bounds _ _ Hv) as Hb.
  destruct Hv as [[Ho _] _].
  assert (Hl : 2 * order + 2 <= Z.log2 (4 * 4 ^ order + pixel) < 2 * order + 4).
  { assert (0 < 2 ^ (2 * order + 2)) by (apply Z.pow_pos_nonneg; lia).
    split.
    - apply Z.log2_le_pow2; lia.
    - apply Z.log2_lt_pow2; lia. }
  assert (Z.log2 (4 * 4 ^ order + pixel) / 2 = order + 1); [|lia].
  symmetry.
  apply Z.div_unique with (r := Z.log2 (4 * 4 ^ order + pixel) - 2 * (order + 1)); lia.
Qed.

Lemma uniq_in_range order pixel :
  TileIndex.valid order pixel ->
  4 <= 4 * 4 ^ order + pixel < 4 * 4 ^ (TileIndex.max_order + 1).
Proof.
  intros Hv. pose proof (uniq_bounds _ _ Hv) as Hb.
  destruct Hv as [[Ho Hm] _]. unfold TileIndex.max_order in *.
  split.
  - assert (2 ^ 2 <= 2 ^ (2 * order + 2)) by (apply Z.pow_le_mono_r; lia).
    change (2 ^ 2) with 4 in *. lia.
  - assert (2 ^ (2 * order + 4) <= 2 ^ 62) by (apply Z.pow_le_mono_r; lia).
    change (4 * 4 ^ (29 + 1)) with (2 ^ 62). lia.
Qed.

(** C9 (spec-modelled tile index): decoding the identifier that [encode]
    produces for a valid (order, pixel) pair gives the pair back, and
    [encode] is injective on valid pairs. *)
Theorem decode_encode_roundtrip :
  (forall order pixel, TileIndex.valid order pixel ->
     exists tileId, TileIndex.encode order pixel = Ok tileId /\
                    TileIndex.decode tileId = Ok (order, pixel)) /\
  (forall o1 p1 o2 p2, TileIndex.valid o1 p1 -> TileIndex.valid o2 p2 ->
     TileIndex.encode o1 p1 = TileIndex.encode o2 p2 -> o1 = o2 /\ p1 = p2).
Proof.
  assert (Hrt : forall order pixel, TileIndex.valid order pixel ->
     TileIndex.encode order pixel = Ok (4 * 4 ^ order + pixel) /\
     TileIndex.decode (4 * 4 ^ order + pixel) = Ok (order, pixel)).
  { intros order pixel Hv. unfold TileIndex.encode, TileIndex.decode.
    rewrite (proj2 (validb_spec _ _) Hv).
    pose proof (uniq_in_range _ _ Hv) as [Hlo Hhi].
    rewrite (proj2 (Z.leb_le _ _) Hlo), (proj2 (Z.ltb_lt _ _) Hhi). simpl.
    rewrite (uniq_order _ _ Hv). split; [reflexivity|].
    f_equal. f_equal. lia. }
  split.
  - intros order pixel Hv. destruct (Hrt _ _ Hv) as [He Hd]. eauto.
  - intros o1 p1 o2 p2 H1 H2 Heq.
    destruct (Hrt _ _ H1) as [He1 Hd1]. destruct (Hrt _ _ H2) as [He2 Hd2].
    rewrite He1, He2 in Heq. inversion Heq as [Hu].
    rewrite Hu in Hd1. rewrite Hd1 in Hd2. inversion Hd2. auto.
Qed.

Lemma decode_encode_roundtrip_witness :
  TileIndex.valid 9 100 /\ TileIndex.valid 0 11 /\
  (exists tileId, TileIndex.encode 9 100 = Ok tileId /\
                  TileIndex.decode tileId = Ok (9, 100)) /\
  (TileIndex.encode 9 100 = TileIndex.encode 0 11 -> 9 = 0 /\ 100 = 11).
Proof.
  assert (H1 : TileIndex.valid 9 100) by (apply validb_spec; reflexivity).
  assert (H2 : TileIndex.valid 0 11) by (apply validb_spec; reflexivity).
  split; [exact H1|]. split; [exact H2|]. split.
  - apply (proj1 decode_encode_roundtrip 9 100 H1).
  - apply (proj2 decode_encode_roundtrip 9 100 0 11 H1 H2).
Defined.

(** ** The table views *)

Lemma asarray_int64_storable (l : list Z) :
  storable l -> asarray_int64 l = Ok (IntCol l).
Proof.
  intros Hs. unfold asarray_int64.
  replace (forallb int64 l) with true; [reflexivity|].
  symmetry. apply forallb_forall. intros u Hu.
  unfold storable in Hs. rewrite List.Forall_forall in Hs. auto.
Qed.

Lemma Table_init_pair (c1 c2 : Column) (n1 n2 : string) :
  col_len c2 = col_len c1 -> Table_init [c1; c2] [n1; n2] = Ok [(n1, c1); (n2, c2)].
Proof.
  intros Hlen. unfold Table_init. simpl. rewrite Hlen, Nat.eqb_refl. reflexivity.
Qed.

Lemma Table_init_pair_mismatch (c1 c2 : Column) (n1 n2 : string) :
  col_len c2 <> col_len c1 -> Table_init [c1; c2] [n1; n2] = Raise ValueError.
Proof.
  intros Hlen. unfold Table_init. simpl.
  destruct (Nat.eqb_spec (col_len c2) (col_len c1)); [contradiction|reflexivity].
Qed.

Lemma table_2d_Ok (self : Localization) :
  length (uniq self) = length (probdensity self) -> storable (uniq self) ->
  table_2d self = Ok [("UNIQ"%string, IntCol (uniq self));
                      ("PROBDENSITY"%string, FloatCol (probdensity self))].
Proof.
  intros Hlen Hs. unfold table_2d. rewrite (asarray_int64_storable _ Hs). simpl.
  apply Table_init_pair. simpl. congruence.
Qed.

Lemma table_3d_Ok (self : Localization) (mu sigma norm : list float) :
  distmu self = Some mu -> distsigma self = Some sigma -> distnorm self = Some norm ->
  length (probdensity self) = length (uniq self) ->
  length mu = length (uniq self) -> length sigma = length (uniq self) ->
  length norm = length (uniq self) -> storable (uniq self) ->
  table self = Ok [("UNIQ"%string, IntCol (uniq self));
                   ("PROBDENSITY"%string, FloatCol (probdensity self));
                   ("DISTMU"%string, FloatCol mu); ("DISTSIGMA"%string, FloatCol sigma);
                   ("DISTNORM"%string, FloatCol norm)].
Proof.
  intros Hmu Hsigma Hnorm Hd Hm Hsg Hn Hs. unfold table, is_3d.
  rewrite Hmu, Hsigma, Hnorm. simpl. rewrite (asarray_int64_storable _ Hs). simpl.
  unfold Table_init. simpl. rewrite Hd, Hm, Hsg, Hn, Nat.eqb_refl. reflexivity.
Qed.

(** C3: for a valid pair of arrays (equal lengths, unique identifiers,
    non-negative densities, identifiers that the BigInteger column
    holds), construction succeeds and [table_2d] is exactly the stored
    identifiers and densities, in the order given.  So is [table] for a
    map that is not 3D; for a 3D map whose distance arrays have the
    length of the identifiers, [table] is these two columns followed by
    the three distance arrays as stored. *)
Theorem table_2d_roundtrip (sid : Z) (date : string) (name : option string)
    (ids : list Z) (dens : list float) (mu sigma norm : option (list float)) :
  valid_map ids dens -> storable ids ->
  exists self,
    Localization_init sid date name ids dens mu sigma norm = Ok self /\
    table_2d self
      = Ok [("UNIQ"%string, IntCol ids); ("PROBDENSITY"%string, FloatCol dens)] /\
    (is_3d self = false ->
       table self
       = Ok [("UNIQ"%string, IntCol ids); ("PROBDENSITY"%string, FloatCol dens)]) /\
    (forall m s n, mu = Some m -> sigma = Some s -> norm = Some n ->
       length m = length ids -> length s = length ids -> length n = length ids ->
       table self
       = Ok [("UNIQ"%string, IntCol ids); ("PROBDENSITY"%string, FloatCol dens);
             ("DISTMU"%string, FloatCol m); ("DISTSIGMA"%string, FloatCol s);
             ("DISTNORM"%string, FloatCol n)]).
Proof.
  intros (Hlen & _ & _) Hs. eexists. split; [reflexivity|].
  assert (H2d : table_2d
            {| sent_by_id := sid; dateobs := date; localization_name := name;
               uniq := ids; probdensity := dens;
               distmu := mu; distsigma := sigma; distnorm := norm |}
          = Ok [("UNIQ"%string, IntCol ids); ("PROBDENSITY"%string, FloatCol dens)]).
  { apply table_2d_Ok; assumption. }
  split; [exact H2d|]. split.
  - intros E3. unfold table. rewrite E3. exact H2d.
  - intros m s n -> -> -> Hm Hsg Hn.
    exact (table_3d_Ok
             {| sent_by_id := sid; dateobs := date; localization_name := name;
                uniq := ids; probdensity := dens;
                distmu := Some m; distsigma := Some s; distnorm := Some n |}
             m s n eq_refl eq_refl eq_refl (eq_sym Hlen) Hm Hsg Hn Hs).
Qed.

Lemma uniform_sky_valid : valid_map (uniq uniform_sky) (probdensity uniform_sky).
Proof.
  split; [reflexivity|]. split.
  - apply (bool_decide_unpack _). vm_compute. reflexivity.
  - simpl. repeat constructor.
Qed.

Lemma uniform_sky_storable : storable (uniq uniform_sky).
Proof. simpl. repeat constructor. Qed.

Lemma table_2d_roundtrip_witness :
  valid_map (uniq uniform_sky) (probdensity uniform_sky) /\
  storable (uniq uniform_sky) /\
  exists self,
    Localization_init 1 "2019-04-25T08:18:05" None (uniq uniform_sky)
      (probdensity uniform_sky) None None None = Ok self /\
    table_2d self = Ok [("UNIQ"%string, IntCol (uniq uniform_sky));
                        ("PROBDENSITY"%string, FloatCol (probdensity uniform_sky))] /\
    table self = Ok [("UNIQ"%string, IntCol (uniq uniform_sky));
                     ("PROBDENSITY"%string, FloatCol (probdensity uniform_sky))].
Proof.
  split; [exact uniform_sky_valid|]. split; [exact uniform_sky_storable|].
  destruct (table_2d_roundtrip 1 "2019-04-25T08:18:05" None
              (uniq uniform_sky) (probdensity uniform_sky) None None None
              uniform_sky_valid uniform_sky_storable)
    as (self & Hinit & H2d & Htable & _).
  exists self. split; [exact Hinit|]. split; [exact H2d|].
  apply Htable. inversion Hinit. reflexivity.
Defined.

(** ** Construction *)

(** C7, as stated, at the arrays of the scenario: five identifiers and
    four densities are not a valid pair, and construction does not fail
    on them. *)
Lemma Localization_init_accepts_mismatch :
  let ids := [4; 5; 6; 7; 8] in
  let dens := repeat 0x1.45f306dc9c883p-4%float 4 in
  ~ valid_map ids dens /\
  ~ exists e, Localization_init 1 "2019-04-25T08:18:05" None ids dens None None None
              = Raise e.
Proof.
  simpl. split.
  - intros (Hlen & _). discriminate Hlen.
  - intros (e & He). discriminate He.
Qed.

(** C7 (amended): construction validates nothing.  It always succeeds and
    stores every array as passed; arrays of unequal length are noticed
    only when the table view is built, where [table_2d] raises
    [ValueError]. *)
Theorem Localization_init_stores (sid : Z) (date : string) (name : option string)
    (ids : list Z) (dens : list float) (mu sigma norm : option (list float)) :
  exists self,
    Localization_init sid date name ids dens mu sigma norm = Ok self /\
    uniq self = ids /\ probdensity self = dens /\
    distmu self = mu /\ distsigma self = sigma /\ distnorm self = norm /\
    (storable ids -> length ids <> length dens -> table_2d self = Raise ValueError).
Proof.
  eexists. split; [reflexivity|]. simpl. repeat (split; [reflexivity|]).
  intros Hs Hlen. unfold table_2d. simpl.
  rewrite (asarray_int64_storable _ Hs). simpl.
  apply Table_init_pair_mismatch. simpl. congruence.
Qed.

Lemma Localization_init_stores_witness :
  exists self,
    Localization_init 1 "2019-04-25T08:18:05" None [4; 5; 6; 7; 8]
      (repeat 0x1.45f306dc9c883p-4%float 4) None None None = Ok self /\
    uniq self = [4; 5; 6; 7; 8] /\
    table_2d self = Raise ValueError.
Proof.
  destruct (Localization_init_stores 1 "2019-04-25T08:18:05" None [4; 5; 6; 7; 8]
              (repeat 0x1.45f306dc9c883p-4%float 4) None None None)
    as (self & Hinit & Hu & _ & _ & _ & _ & Htab).
  exists self. split; [exact Hinit|]. split; [exact Hu|].
  apply Htab.
  - repeat constructor.
  - simpl. lia.
Defined.

(** ** The 3D flag *)

Lemma flat_not_3d `{L : Libraries} (self : Localization) :
  is_3d self = false -> flat self = (a ← flat_2d self; Ok [a]).
Proof. intros H2d. unfold flat. rewrite H2d. reflexivity. Qed.

Lemma is_not_None_true {A} (o : option A) : is_not_None o = true <-> o <> None.
Proof. destruct o; simpl; split; congruence. Qed.

(** C4, as stated, at [short_distmu]: its only tile has no [distmu]
    entry, and the map is still flagged 3D. *)
Lemma is_3d_ignores_missing_entry :
  some_tile_lacks_distance short_distmu /\ is_3d short_distmu <> false.
Proof.
  split.
  - exists 0%nat. split; [simpl; lia|].
    intros ((l & v & Hl & Hv) & _). simpl in Hl. inversion Hl. subst l.
    discriminate Hv.
  - discriminate.
Qed.

(** C4 (amended): [is_3d] holds exactly when the three distance arrays are
    all present (not [None]).  A map lacking one of the arrays as a whole
    is 2D-only: its [table] is [table_2d] and its [flat] is the one-tuple
    of [flat_2d].  The entries of the arrays are not inspected. *)
Theorem is_3d_iff_arrays_present (self : Localization) :
  (is_3d self = true <->
     distmu self <> None /\ distsigma self <> None /\ distnorm self <> None) /\
  (distmu self = None \/ distsigma self = None \/ distnorm self = None ->
     is_3d self = false /\ table self = table_2d self /\
     forall L : Libraries, flat self = (a ← flat_2d self; Ok [a])).
Proof.
  assert (Hiff : is_3d self = true <->
     distmu self <> None /\ distsigma self <> None /\ distnorm self <> None).
  { unfold is_3d. rewrite !andb_true_iff, !is_not_None_true. tauto. }
  split; [exact Hiff|].
  intros Hnone.
  assert (H2d : is_3d self = false).
  { apply not_true_is_false. intros E. apply Hiff in E. tauto. }
  split; [exact H2d|]. split.
  - unfold table. rewrite H2d. reflexivity.
  - intros L. apply flat_not_3d. exact H2d.
Qed.

Lemma is_3d_iff_arrays_present_witness :
  (distmu uniform_sky = None \/ distsigma uniform_sky = None \/
   distnorm uniform_sky = None) /\
  is_3d uniform_sky = false /\ table uniform_sky = table_2d uniform_sky /\
  is_3d uniform_sky_3d = true.
Proof.
  assert (Hn : distmu uniform_sky = None \/ distsigma uniform_sky = None \/
               distnorm uniform_sky = None) by (left; reflexivity).
  split; [exact Hn|].
  destruct (proj2 (is_3d_iff_arrays_present uniform_sky) Hn) as (H1 & H2 & _).
  split; [exact H1|]. split; [exact H2|].
  apply (proj1 (is_3d_iff_arrays_present uniform_sky_3d)).
  simpl. repeat split; discriminate.
Defined.

(** ** The combined flat view of a 2D map *)

(** C10: for a map that is not 3D, [flat] is the one-element tuple holding
    the array of [flat_2d]: it returns exactly when [flat_2d] does, and
    what it returns has length one. *)
Theorem flat_wraps_flat_2d `{L : Libraries} (self : Localization) :
  is_3d self = false ->
  (forall a, flat_2d self = Ok a -> flat self = Ok [a]) /\
  (forall e, flat_2d self = Raise e -> flat self = Raise e) /\
  (forall arrs, flat self = Ok arrs ->
     length arrs = 1%nat /\ exists a, arrs = [a] /\ flat_2d self = Ok a).
Proof.
  intros H2d. rewrite (flat_not_3d self H2d).
  split; [|split].
  - intros a Ha. rewrite Ha. reflexivity.
  - intros e He. rewrite He. reflexivity.
  - intros arrs Harrs. apply bind_Ok in Harrs as (a & Ha & Hr).
    inversion Hr. subst arrs. split; [reflexivity|]. eauto.
Qed.

(** ** The uniqueness constraints of the tile table *)

Lemma insert_Ok (tbl tbl' : list LocalizationTile.t) (r : LocalizationTile.t) :
  LocalizationTile.insert tbl r = Ok tbl' ->
  tbl' = tbl ++ [r] /\
  (LocalizationTile.primary_key r ∉ LocalizationTile.primary_key <$> tbl) /\
  (LocalizationTile.localizationtile_id_healpix_index r
     ∉ LocalizationTile.localizationtile_id_healpix_index <$> tbl).
Proof.
  unfold LocalizationTile.insert. intros H.
  destruct (bool_decide _) eqn:Hpk in H; [discriminate|].
  destruct (bool_decide _) eqn:Hix in H; [discriminate|].
  apply bool_decide_eq_false in Hpk, Hix. simpl in H. inversion H. auto.
Qed.

Lemma NoDup_snoc_fmap {A B} (f : A -> B) (l : list A) (x : A) :
  NoDup (f <$> l) -> f x ∉ f <$> l -> NoDup (f <$> (l ++ [x])).
Proof.
  intros Hnd Hx. rewrite fmap_app. apply NoDup_app.
  split; [exact Hnd|]. split; [|apply NoDup_singleton].
  intros y Hy Hin. apply list_elem_of_singleton in Hin. subst y. contradiction.
Qed.

Lemma NoDup_filter_fmap {A B} (f : A -> B) (P : A -> Prop)
    `{!forall x, Decision (P x)} (l : list A) :
  NoDup (f <$> l) -> NoDup (f <$> filter P l).
Proof.
  intros Hnd. eapply sublist_NoDup; [exact Hnd|].
  apply fmap_sublist, sublist_filter.
Qed.

Lemma duplicate_tiles_reachable : LocalizationTile.reachable duplicate_tiles.
Proof.
  apply LocalizationTile.reachable_insert with (tbl := [tile_row 1]) (r := tile_row 2).
  - apply LocalizationTile.reachable_insert with (tbl := []) (r := tile_row 1).
    + apply LocalizationTile.reachable_empty.
    + vm_compute. reflexivity.
  - vm_compute. reflexivity.
Qed.

(** C8, as stated, at [duplicate_tiles]: two rows of localization 7 on
    the same tile are accepted by the table, and the pair (localization,
    tile) is not unique among them. *)
Lemma localization_tile_not_unique :
  LocalizationTile.reachable duplicate_tiles /\
  ~ NoDup (LocalizationTile.localization_tile <$> duplicate_tiles).
Proof.
  split; [exact duplicate_tiles_reachable|].
  intros Hnd. apply (bool_decide_pack _) in Hnd. vm_compute in Hnd. exact Hnd.
Qed.

(** C8 (amended): in every state of the tile table the pair (row id,
    healpix) is unique, as the unique index
    [localizationtile_id_healpix_index] demands, and so is the primary key
    (id, localization_id, healpix).  Nothing makes the pair
    (localization_id, healpix) unique. *)
Theorem tile_index_unique (tbl : list LocalizationTile.t) :
  LocalizationTile.reachable tbl ->
  NoDup (LocalizationTile.localizationtile_id_healpix_index <$> tbl) /\
  NoDup (LocalizationTile.primary_key <$> tbl).
Proof.
  induction 1 as [|tbl r tbl' _ [IHix IHpk] Hins|tbl lid _ [IHix IHpk]].
  - split; constructor.
  - apply insert_Ok in Hins as (-> & Hpk & Hix).
    split; apply NoDup_snoc_fmap; assumption.
  - split; apply NoDup_filter_fmap; assumption.
Qed.

Lemma tile_index_unique_witness :
  LocalizationTile.reachable duplicate_tiles /\
  NoDup (LocalizationTile.localizationtile_id_healpix_index <$> duplicate_tiles) /\
  NoDup (LocalizationTile.primary_key <$> duplicate_tiles).
Proof.
  split; [exact duplicate_tiles_reachable|].
  apply (tile_index_unique duplicate_tiles duplicate_tiles_reachable).
Defined.

(** ** Reordering *)

Lemma take_Ok {A} (a : list A) (idxs : list nat) (out : list A) :
  take a idxs = Ok out ->
  length out = length idxs /\
  forall j i, idxs !! j = Some i -> out !! j = a !! i.
Proof.
  revert out. induction idxs as [|i idxs IH]; simpl; intros out H.
  - inversion H. split; [reflexivity|]. intros j i' Hj. discriminate Hj.
  - destruct (a !! i) as [x|] eqn:Hx; [|discriminate].
    apply bind_Ok in H as (xs & Hxs & Hout). inversion Hout. subst out.
    destruct (IH _ Hxs) as [Hlen Hget]. split; [simpl; congruence|].
    intros [|j] i' Hj; simpl in *.
    + inversion Hj. subst i'. symmetry. exact Hx.
    + apply Hget. exact Hj.
Qed.

Lemma take_returns {A} (a : list A) (idxs : list nat) :
  (forall i, i ∈ idxs -> (i < length a)%nat) -> exists out, take a idxs = Ok out.
Proof.
  induction idxs as [|i idxs IH]; simpl; intros Hin.
  - eauto.
  - destruct (lookup_lt_is_Some_2 a i) as [x Hx]; [apply Hin; left|].
    rewrite Hx. destruct IH as [xs Hxs]; [intros i' Hi'; apply Hin; right; exact Hi'|].
    rewrite Hxs. simpl. eauto.
Qed.

Lemma mapM_Ok {A B} (f : A -> result B) (l : list A) (k : list B) :
  mapM f l = Ok k -> Forall2 (fun x y => f x = Ok y) l k.
Proof.
  revert k. induction l as [|x l IH]; simpl; intros k H.
  - inversion H. constructor.
  - apply bind_Ok in H as (y & Hy & H).
    apply bind_Ok in H as (k' & Hk' & H). inversion H. subst k.
    constructor; auto.
Qed.

Lemma fmap_Ok {A B} (f : A -> B) (r : result A) (b : B) :
  f <$> r = Ok b -> exists a, r = Ok a /\ b = f a.
Proof. destruct r as [a|e]; simpl; intros H; inversion H. eauto. Qed.

Lemma npix2nside_npix (n : Z) :
  0 < n -> isnpixok (12 * n * n) = true /\ npix2nside (12 * n * n) = Ok n.
Proof.
  intros Hn.
  assert (Hs : Z.sqrt (12 * n * n / 12) = n).
  { replace (12 * n * n) with (n * n * 12) by lia.
    rewrite Z.div_mul by lia. apply Z.sqrt_square. lia. }
  assert (Hok : isnpixok (12 * n * n) = true).
  { unfold isnpixok. rewrite Hs. apply Z.eqb_refl. }
  split; [exact Hok|]. unfold npix2nside. rewrite Hok, Hs. reflexivity.
Qed.

Lemma pow4_mod3 (k : Z) : 0 <= k -> 4 ^ k mod 3 = 1.
Proof.
  intros Hk. pattern k. apply natlike_ind; [reflexivity| |exact Hk].
  intros x Hx IH. rewrite Z.pow_succ_r by lia.
  rewrite Z.mul_mod by lia. rewrite IH. reflexivity.
Qed.

(** A valid number of HEALPix cells is a multiple of three, a power of
    four is not. *)
Lemma npix_not_power_of_four (n k : Z) : isnpixok n = true -> n <> 0 -> n <> 4 ^ k.
Proof.
  unfold isnpixok. intros Hok Hn0 Heq. apply Z.eqb_eq in Hok.
  destruct (Z_lt_le_dec k 0) as [Hneg|Hpos].
  - rewrite Z.pow_neg_r in Heq by lia. contradiction.
  - pose proof (pow4_mod3 k Hpos) as Hmod. rewrite <- Heq, <- Hok in Hmod.
    replace (12 * Z.sqrt (n / 12) * Z.sqrt (n / 12))
      with (4 * Z.sqrt (n / 12) * Z.sqrt (n / 12) * 3) in Hmod by lia.
    rewrite Z.mod_mul in Hmod by lia. discriminate Hmod.
Qed.

Section Reorder.
Context `{L : Libraries}.

Lemma reorder_list_npixok {A} (m out : list A) (inp outp : ordering) :
  reorder_list m inp outp = Ok out ->
  isnpixok (Z.of_nat (length m)) = true /\ Z.of_nat (length m) <> 0.
Proof.
  unfold reorder_list. intros H.
  destruct (Z.of_nat (length m) =? 0) eqn:H0; [discriminate|].
  destruct (isnpixok (Z.of_nat (length m))) eqn:Hok; [|discriminate].
  split; [reflexivity|]. apply Z.eqb_neq. exact H0.
Qed.

Lemma reorder_npixok (m out : Column) (inp outp : ordering) :
  reorder m inp outp = Ok out ->
  isnpixok (Z.of_nat (col_len m)) = true /\ Z.of_nat (col_len m) <> 0.
Proof.
  destruct m as [l|l]; simpl; intros H; apply fmap_Ok in H as (r & H & _);
    apply (reorder_list_npixok _ _ _ _ H).
Qed.

Lemma reorder_list_ring {A} (m out : list A) :
  reorder_list m NESTED RING = Ok out ->
  length out = length m /\
  exists nside', npix2nside (Z.of_nat (length m)) = Ok nside' /\
    forall j, (j < length out)%nat -> out !! j = m !! ring2nest nside' j.
Proof.
  unfold reorder_list. intros H.
  destruct (_ || _) in H; [discriminate|].
  apply bind_Ok in H as (nside' & Hns & H).
  destruct (isnsideok_nest nside') in H; [|discriminate].
  apply take_Ok in H as [Hlen Hget].
  rewrite length_fmap, length_seq in Hlen.
  split; [exact Hlen|]. exists nside'. split; [exact Hns|].
  intros j Hj. apply Hget.
  rewrite list_lookup_fmap, lookup_seq_lt by lia. reflexivity.
Qed.

Lemma reorder_ring (nested ring : Column) :
  reorder nested NESTED RING = Ok ring -> ring_of_nested nested ring.
Proof.
  unfold ring_of_nested.
  destruct nested as [l|l]; simpl; intros H;
    apply fmap_Ok in H as (out & H & ->);
    apply reorder_list_ring in H as (Hlen & nside' & Hns & Hget); simpl;
    (split; [exact I|]); (split; [exact Hlen|]);
    exists nside'; (split; [exact Hns|]);
    intros j Hj; rewrite !list_lookup_fmap, (Hget j Hj); reflexivity.
Qed.

Lemma reorder_list_returns {A} (m : list A) (nside' : Z) :
  isnsideok_nest nside' = true ->
  Z.of_nat (length m) = 12 * nside' * nside' ->
  (forall j, (j < length m)%nat -> (ring2nest nside' j < length m)%nat) ->
  exists out, reorder_list m NESTED RING = Ok out.
Proof.
  intros Hok Hlen Hrange. unfold reorder_list.
  assert (Hpos : 0 < nside').
  { unfold isnsideok_nest in Hok. apply andb_true_iff in Hok as [Hp _].
    apply andb_true_iff in Hp as [Hp _]. apply Z.ltb_lt. exact Hp. }
  destruct (npix2nside_npix nside' Hpos) as [Hnpix Hns].
  rewrite Hlen, Hnpix, Hns.
  replace (12 * nside' * nside' =? 0) with false by (symmetry; apply Z.eqb_neq; nia).
  simpl. rewrite Hok. simpl.
  apply take_returns. intros i Hi.
  apply list_elem_of_fmap in Hi as (j & -> & Hj).
  apply elem_of_seq in Hj. apply Hrange. lia.
Qed.

Lemma reorder_returns (nested : Column) (nside' : Z) :
  isnsideok_nest nside' = true ->
  Z.of_nat (col_len nested) = 12 * nside' * nside' ->
  (forall j, (j < col_len nested)%nat -> (ring2nest nside' j < col_len nested)%nat) ->
  exists ring, reorder nested NESTED RING = Ok ring.
Proof.
  intros Hok Hlen Hrange.
  destruct nested as [l|l]; simpl in *;
    destruct (reorder_list_returns l nside' Hok Hlen Hrange) as [out Hout];
    rewrite Hout; simpl; eauto.
Qed.

End Reorder.

(** ** The flat views *)

Lemma nside2order_nside : nside2order nside = Ok 9.
Proof. reflexivity. Qed.

Lemma getitem_elem (t : Table) (name : string) (c : Column) :
  getitem t name = Ok c -> exists n, (n, c) ∈ t.
Proof.
  induction t as [|[n c'] t IH]; simpl; [discriminate|].
  destruct (String.eqb n name).
  - intros H. inversion H. subst c'. exists n. left.
  - intros H. destruct (IH H) as [n' Hn']. exists n'. right. exact Hn'.
Qed.

Section Flat.
Context `{L : Libraries}.

(** What [flat_2d] returns is the ring view of the [PROB] column of the
    table rasterized at order 9. *)
Lemma flat_2d_Ok (self : Localization) (a : Column) :
  flat_2d self = Ok a ->
  exists t2 t nested,
    table_2d self = Ok t2 /\ rasterize t2 9 = Ok t /\
    getitem t "PROB" = Ok nested /\ reorder nested NESTED RING = Ok a.
Proof.
  unfold flat_2d. rewrite nside2order_nside. intros H.
  apply bind_Ok in H as (order & Ho & H). inversion Ho. subst order.
  apply bind_Ok in H as (t2 & Ht2 & H).
  apply bind_Ok in H as (t & Ht & H).
  apply bind_Ok in H as (nested & Hn & H).
  exists t2, t, nested. auto.
Qed.

(** What [flat] returns for a 3D map is the ring view of the four columns
    of the table rasterized at order 9. *)
Lemma flat_3d_Ok (self : Localization) (arrs : list Column) :
  is_3d self = true -> flat self = Ok arrs ->
  exists t3 t prob mu sigma norm,
    table self = Ok t3 /\ rasterize t3 9 = Ok t /\
    getitem t "PROB" = Ok prob /\ getitem t "DISTMU" = Ok mu /\
    getitem t "DISTSIGMA" = Ok sigma /\ getitem t "DISTNORM" = Ok norm /\
    Forall2 (fun nested ring => reorder nested NESTED RING = Ok ring)
      [prob; mu; sigma; norm] arrs.
Proof.
  unfold flat. intros -> H. rewrite nside2order_nside in H.
  apply bind_Ok in H as (order & Ho & H). inversion Ho. subst order.
  apply bind_Ok in H as (t3 & Ht3 & H).
  apply bind_Ok in H as (t & Ht & H).
  apply bind_Ok in H as (prob & Hp & H).
  apply bind_Ok in H as (mu & Hm & H).
  apply bind_Ok in H as (sigma & Hs & H).
  apply bind_Ok in H as (norm & Hn & H).
  exists t3, t, prob, mu, sigma, norm.
  repeat (split; [assumption|]).
  unfold reorder_seq in H. destruct (forallb _ _) in H; [|discriminate].
  apply mapM_Ok in H. exact H.
Qed.

Lemma rasterized_column_npix (t2 t : Table) (order : Z) (name : string) (c : Column) :
  rasterize_npix -> 0 <= order -> rasterize t2 order = Ok t -> getitem t name = Ok c ->
  Z.of_nat (col_len c) = TileIndex.npix order.
Proof.
  intros Hc Ho Ht Hg. apply (Hc _ _ _ Ho) in Ht. apply getitem_elem in Hg as [n Hn].
  rewrite Forall_forall in Ht. apply (Ht _ Hn).
Qed.

Lemma flat_2d_returns (self : Localization) (t2 t : Table) (nested : Column) :
  table_2d self = Ok t2 -> rasterize t2 9 = Ok t -> getitem t "PROB" = Ok nested ->
  Z.of_nat (col_len nested) = TileIndex.npix 9 ->
  (forall j, (j < col_len nested)%nat -> (ring2nest 512 j < col_len nested)%nat) ->
  exists a, flat_2d self = Ok a.
Proof.
  intros Ht2 Ht Hn Hlen Hrange.
  destruct (reorder_returns nested 512) as [a Ha]; [reflexivity|exact Hlen|exact Hrange|].
  exists a. unfold flat_2d. rewrite nside2order_nside. simpl.
  rewrite Ht2. simpl. rewrite Ht. simpl. rewrite Hn. simpl. exact Ha.
Qed.

(** Whatever [rasterize] returns, an array that [flat_2d] returns has
    passed the check of [reorder]: its length is not a power of four. *)
Lemma flat_2d_never_power_of_four (self : Localization) (a : Column) (k : Z) :
  flat_2d self = Ok a -> Z.of_nat (col_len a) <> 4 ^ k.
Proof.
  intros Ha. apply flat_2d_Ok in Ha as (t2 & t & nested & _ & _ & _ & Ha).
  destruct (reorder_npixok _ _ _ _ Ha) as [Hok Hn0].
  apply reorder_ring in Ha as (_ & Hlen & _). rewrite Hlen.
  apply npix_not_power_of_four; assumption.
Qed.

Lemma flat_3d_returns (self : Localization) (t3 t : Table)
    (prob mu sigma norm : Column) :
  is_3d self = true -> table self = Ok t3 -> rasterize t3 9 = Ok t ->
  getitem t "PROB" = Ok prob -> getitem t "DISTMU" = Ok mu ->
  getitem t "DISTSIGMA" = Ok sigma -> getitem t "DISTNORM" = Ok norm ->
  Forall (fun c => Z.of_nat (col_len c) = TileIndex.npix 9) [prob; mu; sigma; norm] ->
  (forall n j, Z.of_nat n = TileIndex.npix 9 -> (j < n)%nat -> (ring2nest 512 j < n)%nat) ->
  exists arrs, flat self = Ok arrs.
Proof.
  intros H3 Ht3 Ht Hp Hm Hs Hn Hlen Hrange.
  assert (Hret : forall c, Z.of_nat (col_len c) = TileIndex.npix 9 ->
                   exists a, reorder c NESTED RING = Ok a).
  { intros c Hc. apply (reorder_returns c 512); [reflexivity|exact Hc|].
    intros j Hj. apply (Hrange _ _ Hc Hj). }
  inversion Hlen as [|? ? Hlp Hlen1]; subst.
  inversion Hlen1 as [|? ? Hlm Hlen2]; subst.
  inversion Hlen2 as [|? ? Hls Hlen3]; subst.
  inversion Hlen3 as [|? ? Hln _]; subst.
  destruct (Hret _ Hlp) as [a1 Ha1]. destruct (Hret _ Hlm) as [a2 Ha2].
  destruct (Hret _ Hls) as [a3 Ha3]. destruct (Hret _ Hln) as [a4 Ha4].
  exists [a1; a2; a3; a4]. unfold flat. rewrite H3, nside2order_nside. simpl.
  rewrite Ht3. simpl. rewrite Ht. simpl. rewrite Hp. simpl. rewrite Hm. simpl.
  rewrite Hs. simpl. rewrite Hn. simpl.
  assert (Hm' : col_len mu = col_len prob) by (apply Nat2Z.inj; congruence).
  assert (Hs' : col_len sigma = col_len prob) by (apply Nat2Z.inj; congruence).
  assert (Hn' : col_len norm = col_len prob) by (apply Nat2Z.inj; congruence).
  rewrite Hm', Hs', Hn', Nat.eqb_refl. simpl.
  rewrite Ha1. simpl. rewrite Ha2. simpl. rewrite Ha3. simpl. rewrite Ha4. reflexivity.
Qed.

End Flat.

Section FlatLength.
Context `{L : Libraries}.
Hypothesis rasterize_rows : rasterize_npix.

Lemma ring_npix (t2 t : Table) (name : string) (nested a : Column) :
  rasterize t2 9 = Ok t -> getitem t name = Ok nested ->
  reorder nested NESTED RING = Ok a ->
  Z.of_nat (col_len a) = TileIndex.npix 9.
Proof.
  intros Ht Hn Ha. apply reorder_ring in Ha as (_ & Hlen & _). rewrite Hlen.
  apply (rasterized_column_npix t2 t 9 name nested rasterize_rows); [lia|exact Ht|exact Hn].
Qed.

Lemma flat_2d_npix (self : Localization) (a : Column) :
  flat_2d self = Ok a -> Z.of_nat (col_len a) = TileIndex.npix 9.
Proof.
  intros Ha. apply flat_2d_Ok in Ha as (t2 & t & nested & _ & Ht & Hn & Ha).
  eapply ring_npix; eassumption.
Qed.

Lemma flat_npix (self : Localization) (arrs : list Column) :
  flat self = Ok arrs ->
  Forall (fun a => Z.of_nat (col_len a) = TileIndex.npix 9) arrs.
Proof.
  intros Harrs. destruct (is_3d self) eqn:E3.
  - apply (flat_3d_Ok self arrs E3) in Harrs
      as (t3 & t & prob & mu & sigma & norm & _ & Ht & Hp & Hm & Hs & Hn & Hall).
    inversion Hall as [|? a1 ? r1 Ha1 Hall1]; subst.
    inversion Hall1 as [|? a2 ? r2 Ha2 Hall2]; subst.
    inversion Hall2 as [|? a3 ? r3 Ha3 Hall3]; subst.
    inversion Hall3 as [|? a4 ? r4 Ha4 Hall4]; subst.
    inversion Hall4; subst.
    repeat apply Forall_cons_2; [| | | |constructor].
    + exact (ring_npix _ _ _ _ _ Ht Hp Ha1).
    + exact (ring_npix _ _ _ _ _ Ht Hm Ha2).
    + exact (ring_npix _ _ _ _ _ Ht Hs Ha3).
    + exact (ring_npix _ _ _ _ _ Ht Hn Ha4).
  - rewrite (flat_not_3d self E3) in Harrs.
    apply bind_Ok in Harrs as (a & Ha & Hr). inversion Hr. subst arrs.
    constructor; [exact (flat_2d_npix self a Ha)|constructor].
Qed.

End FlatLength.

(** ** The reference instance meets the contract *)

Lemma raster_column_npix (order : Z) (ids : list Z) (vals : list float) :
  Z.of_nat (length (Reference.raster_column order ids vals)) = TileIndex.npix order.
Proof.
  unfold Reference.raster_column. rewrite length_fmap, length_seq.
  apply Z2Nat.id. unfold TileIndex.npix.
  assert (0 <= 4 ^ order) by (apply Z.pow_nonneg; lia). lia.
Qed.

Lemma Reference_rasterize_npix peak sfd :
  rasterize_npix (L := Reference.libraries peak sfd).
Proof.
  intros t order t' Ho H. simpl in H. unfold Reference.rasterize in H.
  apply bind_Ok in H as (u & _ & H). apply bind_Ok in H as (d & _ & H).
  destruct u as [ids|]; [|discriminate]. destruct d as [|dens]; [destruct ids; discriminate|].
  destruct ids as [|u0 ids]; [discriminate|].
  replace (order <? 0) with false in H by (symmetry; apply Z.ltb_ge; exact Ho).
  destruct (forallb _ (u0 :: ids)); [|discriminate]. inversion H. subst t'. clear H.
  apply Forall_cons_2.
  - simpl. rewrite length_fmap. apply raster_column_npix.
  - simpl.
    destruct (getitem t "DISTMU") as [[|]|];
      destruct (getitem t "DISTSIGMA") as [[|]|];
      destruct (getitem t "DISTNORM") as [[|]|]; simpl;
      repeat (apply Forall_cons_2; [simpl; apply raster_column_npix|]);
      apply Forall_nil_2.
Qed.

Lemma Reference_ring2nest_range (ns : Z) (n j : nat) :
  Z.of_nat n = 12 * ns * ns -> (0 < n)%nat -> (Reference.ring2nest ns j < n)%nat.
Proof.
  intros Hn Hpos. unfold Reference.ring2nest.
  destruct (List.find _ _) as [i|] eqn:Hfind; [|exact Hpos].
  apply List.find_some in Hfind as [Hin _]. apply in_seq in Hin. lia.
Qed.

Lemma getitem_head (n : string) (c : Column) (t : Table) : getitem ((n, c) :: t) n = Ok c.
Proof. simpl. rewrite String.eqb_refl. reflexivity. Qed.

Lemma Reference_rasterize_2d (ids : list Z) (dens : list float) (order : Z) :
  0 <= order -> ids <> [] -> forallb (Reference.not_finer order) ids = true ->
  Reference.rasterize
    [("UNIQ"%string, IntCol ids); ("PROBDENSITY"%string, FloatCol dens)] order
  = Ok [("PROB"%string,
         FloatCol ((fun x => (x * Reference.pixarea order)%float)
                     <$> Reference.raster_column order ids dens))].
Proof.
  intros Ho Hne Hfine. unfold Reference.rasterize.
  replace (order <? 0) with false by (symmetry; apply Z.ltb_ge; exact Ho).
  simpl getitem. cbv beta iota. simpl mbind.
  destruct ids as [|u0 ids]; [contradiction|]. rewrite Hfine. reflexivity.
Qed.

Lemma Reference_rasterize_3d (ids : list Z) (dens mu sigma norm : list float) (order : Z) :
  0 <= order -> ids <> [] -> forallb (Reference.not_finer order) ids = true ->
  Reference.rasterize
    [("UNIQ"%string, IntCol ids); ("PROBDENSITY"%string, FloatCol dens);
     ("DISTMU"%string, FloatCol mu); ("DISTSIGMA"%string, FloatCol sigma);
     ("DISTNORM"%string, FloatCol norm)] order
  = Ok [("PROB"%string,
         FloatCol ((fun x => (x * Reference.pixarea order)%float)
                     <$> Reference.raster_column order ids dens));
        ("DISTMU"%string, FloatCol (Reference.raster_column order ids mu));
        ("DISTSIGMA"%string, FloatCol (Reference.raster_column order ids sigma));
        ("DISTNORM"%string, FloatCol (Reference.raster_column order ids norm))].
Proof.
  intros Ho Hne Hfine. unfold Reference.rasterize.
  replace (order <? 0) with false by (symmetry; apply Z.ltb_ge; exact Ho).
  simpl getitem. cbv beta iota. simpl mbind.
  destruct ids as [|u0 ids]; [contradiction|]. rewrite Hfine. reflexivity.
Qed.

#[local] Opaque Reference.raster_column Reference.ring2nest Reference.pixarea.

(** ** The views on the example maps *)

Lemma offline_ring2nest_range (n j : nat) :
  Z.of_nat n = TileIndex.npix 9 -> (j < n)%nat ->
  (ring2nest (Libraries := offline_libraries) 512 j < n)%nat.
Proof.
  intros Hn Hj. apply (Reference_ring2nest_range 512 n j); [exact Hn|lia].
Qed.

Lemma offline_rasterize_npix : rasterize_npix (L := offline_libraries).
Proof. apply Reference_rasterize_npix. Qed.

Lemma uniform_sky_table_2d :
  table_2d uniform_sky
  = Ok [("UNIQ"%string, IntCol (uniq uniform_sky));
        ("PROBDENSITY"%string, FloatCol (probdensity uniform_sky))].
Proof. apply table_2d_Ok; [reflexivity|exact uniform_sky_storable]. Qed.

Lemma uniform_sky_rasterize :
  rasterize (Libraries := offline_libraries)
    [("UNIQ"%string, IntCol (uniq uniform_sky));
     ("PROBDENSITY"%string, FloatCol (probdensity uniform_sky))] 9
  = Ok [("PROB"%string,
         FloatCol ((fun x => (x * Reference.pixarea 9)%float)
                     <$> Reference.raster_column 9 (uniq uniform_sky)
                           (probdensity uniform_sky)))].
Proof. apply Reference_rasterize_2d; [lia|discriminate|reflexivity]. Qed.

Lemma uniform_sky_flat_2d :
  exists a, flat_2d (L := offline_libraries) uniform_sky = Ok a.
Proof.
  assert (Hlen : Z.of_nat (col_len (FloatCol
            ((fun x => (x * Reference.pixarea 9)%float)
               <$> Reference.raster_column 9 (uniq uniform_sky)
                     (probdensity uniform_sky)))) = TileIndex.npix 9).
  { cbv [col_len]. rewrite length_fmap. apply raster_column_npix. }
  eapply (flat_2d_returns (L := offline_libraries) uniform_sky).
  - exact uniform_sky_table_2d.
  - exact uniform_sky_rasterize.
  - apply getitem_head.
  - exact Hlen.
  - intros j Hj. apply (offline_ring2nest_range _ j Hlen Hj).
Qed.

Lemma uniform_sky_3d_flat :
  exists arrs, flat (L := offline_libraries) uniform_sky_3d = Ok arrs.
Proof.
  eapply (flat_3d_returns (L := offline_libraries) uniform_sky_3d).
  - reflexivity.
  - apply (table_3d_Ok uniform_sky_3d); try reflexivity. exact uniform_sky_storable.
  - apply (Reference_rasterize_3d _ _ _ _ _ 9); [lia|discriminate|reflexivity].
  - apply getitem_head.
  - unfold getitem. reflexivity.
  - unfold getitem. reflexivity.
  - unfold getitem. reflexivity.
  - repeat apply Forall_cons_2; [| | | |constructor]; cbv [col_len];
      rewrite ?length_fmap; apply raster_column_npix.
  - intros n j Hn Hj. apply (offline_ring2nest_range n j Hn Hj).
Qed.

(** ** Length of the flat views *)

(** C1, as stated, at [uniform_sky]: [flat_2d] returns an array, and its
    length is not a power of four, whatever the order. *)
Lemma flat_2d_length_not_power_of_four :
  exists a, flat_2d (L := offline_libraries) uniform_sky = Ok a /\
            forall order, Z.of_nat (col_len a) <> 4 ^ order.
Proof.
  destruct uniform_sky_flat_2d as [a Ha]. exists a. split; [exact Ha|].
  intros order. apply (flat_2d_never_power_of_four uniform_sky a order Ha).
Qed.

(** C1 (amended): the order of the flat views is fixed by the class,
    [nside2order 512 = 9], and given that [rasterize] returns one row per
    pixel of the order asked for, the array of [flat_2d] and each array of
    the tuple of [flat] has length [12 * 4^9 = 12 * nside^2 = 3145728]. *)
Theorem flat_length `{L : Libraries} (self : Localization) :
  rasterize_npix ->
  nside2order nside = Ok 9 /\
  (forall a, flat_2d self = Ok a -> Z.of_nat (col_len a) = 12 * 4 ^ 9) /\
  (forall arrs, flat self = Ok arrs ->
     Forall (fun a => Z.of_nat (col_len a) = 12 * 4 ^ 9) arrs).
Proof.
  intros Hc. split; [reflexivity|]. split.
  - intros a Ha. apply (flat_2d_npix Hc self a Ha).
  - intros arrs Harrs. apply (flat_npix Hc self arrs Harrs).
Qed.

Lemma flat_length_witness :
  rasterize_npix (L := offline_libraries) /\
  (exists a, flat_2d (L := offline_libraries) uniform_sky = Ok a /\
             Z.of_nat (col_len a) = 3145728) /\
  (exists arrs, flat (L := offline_libraries) uniform_sky_3d = Ok arrs /\
                Forall (fun a => Z.of_nat (col_len a) = 3145728) arrs).
Proof.
  split; [exact offline_rasterize_npix|]. split.
  - destruct uniform_sky_flat_2d as [a Ha]. exists a. split; [exact Ha|].
    apply (proj1 (proj2 (flat_length (L := offline_libraries) uniform_sky
                           offline_rasterize_npix)) a Ha).
  - destruct uniform_sky_3d_flat as [arrs Harrs]. exists arrs. split; [exact Harrs|].
    apply (proj2 (proj2 (flat_length (L := offline_libraries) uniform_sky_3d
                           offline_rasterize_npix)) arrs Harrs).
Defined.

(** ** Cell ordering of the flat views *)

(** C5: both flat views are reordered from NESTED to RING.  The array of
    [flat_2d] is the ring view of the rasterized [PROB] column, and every
    array of the tuple of [flat] is the ring view of a column of the
    rasterized table; for a 3D map these are [PROB], [DISTMU],
    [DISTSIGMA], [DISTNORM], in this order. *)
Theorem flat_views_ring_ordered `{L : Libraries} (self : Localization) :
  (forall a, flat_2d self = Ok a ->
     exists t2 t nested,
       table_2d self = Ok t2 /\ rasterize t2 9 = Ok t /\
       getitem t "PROB" = Ok nested /\ ring_of_nested nested a) /\
  (forall arrs, flat self = Ok arrs ->
     exists tm t,
       table self = Ok tm /\ rasterize tm 9 = Ok t /\
       Forall (fun a => exists name nested,
                 getitem t name = Ok nested /\ ring_of_nested nested a) arrs) /\
  (forall arrs, is_3d self = true -> flat self = Ok arrs ->
     exists t3 t prob mu sigma norm,
       table self = Ok t3 /\ rasterize t3 9 = Ok t /\
       getitem t "PROB" = Ok prob /\ getitem t "DISTMU" = Ok mu /\
       getitem t "DISTSIGMA" = Ok sigma /\ getitem t "DISTNORM" = Ok norm /\
       Forall2 ring_of_nested [prob; mu; sigma; norm] arrs).
Proof.
  assert (H2d : forall a, flat_2d self = Ok a ->
     exists t2 t nested,
       table_2d self = Ok t2 /\ rasterize t2 9 = Ok t /\
       getitem t "PROB" = Ok nested /\ ring_of_nested nested a).
  { intros a Ha. apply flat_2d_Ok in Ha as (t2 & t & nested & Ht2 & Ht & Hn & Ha).
    exists t2, t, nested. repeat (split; [assumption|]). apply reorder_ring. exact Ha. }
  assert (H3d : forall arrs, is_3d self = true -> flat self = Ok arrs ->
     exists t3 t prob mu sigma norm,
       table self = Ok t3 /\ rasterize t3 9 = Ok t /\
       getitem t "PROB" = Ok prob /\ getitem t "DISTMU" = Ok mu /\
       getitem t "DISTSIGMA" = Ok sigma /\ getitem t "DISTNORM" = Ok norm /\
       Forall2 ring_of_nested [prob; mu; sigma; norm] arrs).
  { intros arrs E3 Harrs. apply (flat_3d_Ok self arrs E3) in Harrs
      as (t3 & t & prob & mu & sigma & norm & Ht3 & Ht & Hp & Hm & Hs & Hn & Hall).
    exists t3, t, prob, mu, sigma, norm. repeat (split; [assumption|]).
    eapply Forall2_impl; [exact Hall|]. intros nested ring. apply reorder_ring. }
  split; [exact H2d|]. split; [|exact H3d].
  intros arrs Harrs. destruct (is_3d self) eqn:E3.
  - destruct (H3d arrs eq_refl Harrs)
      as (t3 & t & prob & mu & sigma & norm & Ht3 & Ht & Hp & Hm & Hs & Hn & Hall).
    exists t3, t. split; [exact Ht3|]. split; [exact Ht|].
    inversion Hall as [|? a1 ? r1 Ha1 Hall1]; subst.
    inversion Hall1 as [|? a2 ? r2 Ha2 Hall2]; subst.
    inversion Hall2 as [|? a3 ? r3 Ha3 Hall3]; subst.
    inversion Hall3 as [|? a4 ? r4 Ha4 Hall4]; subst.
    inversion Hall4; subst.
    repeat apply Forall_cons_2; [| | | |constructor]; eauto.
  - rewrite (flat_not_3d self E3) in Harrs.
    apply bind_Ok in Harrs as (a & Ha & Hr). inversion Hr. subst arrs.
    destruct (H2d a Ha) as (t2 & t & nested & Ht2 & Ht & Hn & Hring).
    exists t2, t. split; [unfold table; rewrite E3; exact Ht2|].
    split; [exact Ht|]. apply Forall_cons_2; [eauto|constructor].
Qed.

Lemma flat_views_ring_ordered_witness :
  (exists a nested,
     flat_2d (L := offline_libraries) uniform_sky = Ok a /\
     ring_of_nested (L := offline_libraries) nested a) /\
  (exists arrs prob mu sigma norm,
     flat (L := offline_libraries) uniform_sky_3d = Ok arrs /\
     Forall2 (ring_of_nested (L := offline_libraries)) [prob; mu; sigma; norm] arrs).
Proof.
  split.
  - destruct uniform_sky_flat_2d as [a Ha].
    destruct (proj1 (flat_views_ring_ordered (L := offline_libraries) uniform_sky) a Ha)
      as (t2 & t & nested & _ & _ & _ & Hring).
    exists a, nested. split; [exact Ha|exact Hring].
  - destruct uniform_sky_3d_flat as [arrs Harrs].
    destruct (proj2 (proj2 (flat_views_ring_ordered (L := offline_libraries)
                              uniform_sky_3d)) arrs eq_refl Harrs)
      as (t3 & t & prob & mu & sigma & norm & _ & _ & _ & _ & _ & _ & Hall).
    exists arrs, prob, mu, sigma, norm. split; [exact Harrs|exact Hall].
Defined.

Lemma flat_wraps_flat_2d_witness :
  is_3d uniform_sky = false /\
  exists a, flat_2d (L := offline_libraries) uniform_sky = Ok a /\
            flat (L := offline_libraries) uniform_sky = Ok [a].
Proof.
  split; [reflexivity|].
  destruct uniform_sky_flat_2d as [a Ha]. exists a. split; [exact Ha|].
  apply (proj1 (flat_wraps_flat_2d (L := offline_libraries) uniform_sky eq_refl) a Ha).
Defined.

(** ** The center of the localization *)

(** C2: when the dust lookup raises at the coordinate of the posterior
    maximum, [center] still returns: [ra], [dec], [gal_lat] and [gal_lon]
    are those of the maximum and [ebv] is [None]; the exception of the
    lookup does not reach the caller. *)
Theorem center_tolerates_lookup_failure `{L : Libraries} (self : Localization)
    (prob : Column) (coord : SkyCoord) (e : exn) :
  flat_2d self = Ok prob -> posterior_max prob = Ok coord ->
  dust_ebv coord = Raise e ->
  exists center_info : gmap string (option float),
    center self = Ok center_info /\
    center_info !! "ra"%string = Some (Some (ra_deg coord)) /\
    center_info !! "dec"%string = Some (Some (dec_deg coord)) /\
    center_info !! "gal_lat"%string = Some (Some (galactic_b_deg coord)) /\
    center_info !! "gal_lon"%string = Some (Some (galactic_l_deg coord)) /\
    center_info !! "ebv"%string = Some None.
Proof.
  intros Hprob Hcoord Hdust. eexists. split.
  - unfold center. rewrite Hprob. simpl. rewrite Hcoord. simpl.
    rewrite Hdust. simpl. reflexivity.
  - repeat split; by simplify_map_eq.
Qed.

Lemma center_tolerates_lookup_failure_witness :
  (exists prob, flat_2d (L := offline_libraries) uniform_sky = Ok prob /\
                posterior_max (Libraries := offline_libraries) prob = Ok peak0) /\
  dust_ebv (L := offline_libraries) peak0 = Raise (OtherError "FileNotFoundError") /\
  exists center_info : gmap string (option float),
    center (L := offline_libraries) uniform_sky = Ok center_info /\
    center_info !! "ra"%string = Some (Some 45%float) /\
    center_info !! "dec"%string = Some (Some 41.75%float) /\
    center_info !! "gal_lat"%string = Some (Some (-14.5)%float) /\
    center_info !! "gal_lon"%string = Some (Some 145.5%float) /\
    center_info !! "ebv"%string = Some None.
Proof.
  destruct uniform_sky_flat_2d as [prob Hprob].
  split; [exists prob; split; [exact Hprob|reflexivity]|].
  split; [reflexivity|].
  apply (center_tolerates_lookup_failure (L := offline_libraries) uniform_sky prob peak0
           (OtherError "FileNotFoundError") Hprob eq_refl eq_refl).
Defined.

(** ** When the table views return *)

Lemma storable_forallb (l : list Z) : forallb int64 l = true <-> storable l.
Proof.
  unfold storable. rewrite forallb_forall, List.Forall_forall. reflexivity.
Qed.

Lemma table_2d_cases (self : Localization) :
  table_2d self
  = if forallb int64 (uniq self) then
      if (length (probdensity self) =? length (uniq self))%nat
      then Ok [("UNIQ"%string, IntCol (uniq self));
               ("PROBDENSITY"%string, FloatCol (probdensity self))]
      else Raise ValueError
    else Raise OverflowError.
Proof.
  unfold table_2d, asarray_int64. destruct (forallb int64 (uniq self)); [|reflexivity].
  simpl. unfold Table_init. simpl.
  destruct (length (probdensity self) =? length (uniq self))%nat; reflexivity.
Qed.

Lemma table_3d_cases (self : Localization) (mu sigma norm : list float) :
  distmu self = Some mu -> distsigma self = Some sigma -> distnorm self = Some norm ->
  table self
  = if forallb int64 (uniq self) then
      if forallb (fun l : list float => (length l =? length (uniq self))%nat)
           [probdensity self; mu; sigma; norm]
      then Ok [("UNIQ"%string, IntCol (uniq self));
               ("PROBDENSITY"%string, FloatCol (probdensity self));
               ("DISTMU"%string, FloatCol mu); ("DISTSIGMA"%string, FloatCol sigma);
               ("DISTNORM"%string, FloatCol norm)]
      else Raise ValueError
    else Raise OverflowError.
Proof.
  intros Hmu Hsigma Hnorm. unfold table, is_3d. rewrite Hmu, Hsigma, Hnorm. simpl.
  unfold asarray_int64. destruct (forallb int64 (uniq self)); [|reflexivity].
  simpl. unfold Table_init. simpl.
  destruct (length (probdensity self) =? length (uniq self))%nat;
    destruct (length mu =? length (uniq self))%nat;
    destruct (length sigma =? length (uniq self))%nat;
    destruct (length norm =? length (uniq self))%nat; reflexivity.
Qed.

(** X1: [table_2d] returns exactly when the identifiers fit 64-bit signed
    integers and the two arrays have the same length, and then it is the
    stored pair of columns.  An identifier out of range raises
    [OverflowError], whatever the lengths; a length mismatch (with
    identifiers in range) raises [ValueError]. *)
Theorem table_2d_outcome (self : Localization) :
  (table_2d self = Raise OverflowError <-> ~ storable (uniq self)) /\
  (table_2d self = Raise ValueError <->
     storable (uniq self) /\ length (uniq self) <> length (probdensity self)) /\
  (forall t, table_2d self = Ok t <->
     storable (uniq self) /\ length (uniq self) = length (probdensity self) /\
     t = [("UNIQ"%string, IntCol (uniq self));
          ("PROBDENSITY"%string, FloatCol (probdensity self))]).
Proof.
  rewrite table_2d_cases.
  destruct (forallb int64 (uniq self)) eqn:Hs.
  - apply storable_forallb in Hs.
    destruct (Nat.eqb_spec (length (probdensity self)) (length (uniq self))) as [Hl|Hl].
    + split; [|split].
      * split; [discriminate|contradiction].
      * split; [discriminate|]. intros [_ Hne]. congruence.
      * intros t. split.
        -- intros H. inversion H. auto.
        -- intros (_ & _ & ->). reflexivity.
    + split; [|split].
      * split; [discriminate|contradiction].
      * split; [intros _; split; [exact Hs|congruence]|reflexivity].
      * intros t. split; [discriminate|]. intros (_ & He & _). congruence.
  - assert (Hns : ~ storable (uniq self)).
    { intros H. apply storable_forallb in H. congruence. }
    split; [|split].
    + split; [intros _; exact Hns|reflexivity].
    + split; [discriminate|]. intros [H _]. contradiction.
    + intros t. split; [discriminate|]. intros (H & _). contradiction.
Qed.

Lemma table_2d_outcome_witness :
  table_2d mismatched = Raise ValueError /\
  table_2d uniform_sky
  = Ok [("UNIQ"%string, IntCol (uniq uniform_sky));
        ("PROBDENSITY"%string, FloatCol (probdensity uniform_sky))].
Proof.
  split.
  - apply (proj1 (proj2 (table_2d_outcome mismatched))). split.
    + simpl. repeat constructor.
    + simpl. lia.
  - apply (proj2 (proj2 (table_2d_outcome uniform_sky))). split.
    + exact uniform_sky_storable.
    + split; reflexivity.
Defined.

(** X2: for a map with the three distance arrays, [table] returns exactly
    when the identifiers fit 64-bit signed integers and the density and
    distance arrays all have the length of the identifiers, and then it is
    the five stored columns.  An identifier out of range raises
    [OverflowError]; otherwise any array of another length raises
    [ValueError]. *)
Theorem table_3d_outcome (self : Localization) (mu sigma norm : list float) :
  distmu self = Some mu -> distsigma self = Some sigma -> distnorm self = Some norm ->
  let same_length :=
    length (probdensity self) = length (uniq self) /\
    length mu = length (uniq self) /\ length sigma = length (uniq self) /\
    length norm = length (uniq self) in
  (table self = Raise OverflowError <-> ~ storable (uniq self)) /\
  (table self = Raise ValueError <-> storable (uniq self) /\ ~ same_length) /\
  (forall t, table self = Ok t <->
     storable (uniq self) /\ same_length /\
     t = [("UNIQ"%string, IntCol (uniq self));
          ("PROBDENSITY"%string, FloatCol (probdensity self));
          ("DISTMU"%string, FloatCol mu); ("DISTSIGMA"%string, FloatCol sigma);
          ("DISTNORM"%string, FloatCol norm)]).
Proof.
  intros Hmu Hsigma Hnorm same_length.
  rewrite (table_3d_cases self mu sigma norm Hmu Hsigma Hnorm).
  assert (Hlen : forallb (fun l : list float => (length l =? length (uniq self))%nat)
                   [probdensity self; mu; sigma; norm] = true <-> same_length).
  { unfold same_length. simpl. rewrite !andb_true_iff, !Nat.eqb_eq. tauto. }
  destruct (forallb int64 (uniq self)) eqn:Hs.
  - apply storable_forallb in Hs.
    destruct (forallb _ [probdensity self; mu; sigma; norm]) eqn:Hl.
    + assert (Hsame : same_length) by (apply Hlen; reflexivity).
      split; [|split].
      * split; [discriminate|contradiction].
      * split; [discriminate|]. intros [_ Hne]. contradiction.
      * intros t. split.
        -- intros H. inversion H. auto.
        -- intros (_ & _ & ->). reflexivity.
    + assert (Hdiff : ~ same_length).
      { intros H. apply Hlen in H. discriminate H. }
      split; [|split].
      * split; [discriminate|contradiction].
      * split; [intros _; split; assumption|reflexivity].
      * intros t. split; [discriminate|]. intros (_ & He & _). contradiction.
  - assert (Hns : ~ storable (uniq self)).
    { intros H. apply storable_forallb in H. congruence. }
    split; [|split].
    + split; [intros _; exact Hns|reflexivity].
    + split; [discriminate|]. intros [H _]. contradiction.
    + intros t. split; [discriminate|]. intros (H & _). contradiction.
Qed.

Lemma table_3d_outcome_witness :
  table short_distmu = Raise ValueError /\
  exists t, table uniform_sky_3d = Ok t /\ length t = 5%nat.
Proof.
  split.
  - apply (proj1 (proj2 (table_3d_outcome short_distmu [] [10%float] [1%float]
                           eq_refl eq_refl eq_refl))).
    split.
    + simpl. repeat constructor.
    + simpl. intros (_ & H & _). discriminate H.
  - eexists. split.
    + apply (proj2 (proj2 (table_3d_outcome uniform_sky_3d (repeat 100%float 12)
                             (repeat 10%float 12) (repeat 1%float 12)
                             eq_refl eq_refl eq_refl))).
      split; [exact uniform_sky_storable|]. split; [|reflexivity].
      simpl. repeat split; reflexivity.
    + reflexivity.
Defined.

(** X3: whenever [table] returns, [table_2d] returns too, and it is the
    first two columns of [table]: the full table extends the 2D one. *)
Theorem table_extends_table_2d (self : Localization) (t : Table) :
  table self = Ok t -> table_2d self = Ok (firstn 2 t).
Proof.
  intros Ht. destruct (is_3d self) eqn:E3.
  - unfold is_3d in E3. apply andb_true_iff in E3 as [E3 Hn].
    apply andb_true_iff in E3 as [Hm Hs].
    destruct (distmu self) as [mu|] eqn:Hmu; [|discriminate].
    destruct (distsigma self) as [sigma|] eqn:Hsigma; [|discriminate].
    destruct (distnorm self) as [norm|] eqn:Hnorm; [|discriminate].
    rewrite (table_3d_cases self mu sigma norm Hmu Hsigma Hnorm) in Ht.
    rewrite table_2d_cases.
    destruct (forallb int64 (uniq self)); [|discriminate].
    simpl in Ht.
    destruct (length (probdensity self) =? length (uniq self))%nat; [|discriminate].
    simpl in Ht. destruct (_ && _) in Ht; [|discriminate].
    inversion Ht. reflexivity.
  - unfold table in Ht. rewrite E3 in Ht. rewrite Ht. f_equal.
    rewrite table_2d_cases in Ht.
    destruct (forallb int64 (uniq self)); [|discriminate].
    destruct (length (probdensity self) =? length (uniq self))%nat; [|discriminate].
    inversion Ht. reflexivity.
Qed.

Lemma table_extends_table_2d_witness :
  exists t, table uniform_sky_3d = Ok t /\ length t = 5%nat /\
            table_2d uniform_sky_3d = Ok (firstn 2 t).
Proof.
  eexists. split; [reflexivity|]. split; [reflexivity|].
  apply (table_extends_table_2d uniform_sky_3d _ eq_refl).
Defined.

(** ** What the flat views and the center pass on *)

(** X4: an exception raised while the table is built reaches the caller
    of the flat views unchanged: that of [table_2d] through [flat_2d] (and
    through [flat] for a map that is not 3D), that of [table] through
    [flat] for a 3D map. *)
Theorem table_errors_reach_flat `{L : Libraries} (self : Localization) (e : exn) :
  (table_2d self = Raise e -> flat_2d self = Raise e) /\
  (is_3d self = false -> table_2d self = Raise e -> flat self = Raise e) /\
  (is_3d self = true -> table self = Raise e -> flat self = Raise e).
Proof.
  assert (H2d : table_2d self = Raise e -> flat_2d self = Raise e).
  { intros H. unfold flat_2d. rewrite nside2order_nside. simpl. rewrite H. reflexivity. }
  split; [exact H2d|]. split.
  - intros E3 H. rewrite (flat_not_3d self E3), (H2d H). reflexivity.
  - intros E3 H. unfold flat. rewrite E3, nside2order_nside. simpl.
    rewrite H. reflexivity.
Qed.

Lemma table_errors_reach_flat_witness :
  table_2d mismatched = Raise ValueError /\
  flat_2d (L := offline_libraries) mismatched = Raise ValueError /\
  flat (L := offline_libraries) mismatched = Raise ValueError /\
  table short_distmu = Raise ValueError /\
  flat (L := offline_libraries) short_distmu = Raise ValueError.
Proof.
  assert (H1 : table_2d mismatched = Raise ValueError) by reflexivity.
  assert (H2 : table short_distmu = Raise ValueError) by reflexivity.
  split; [exact H1|]. split; [|split; [|split; [exact H2|]]].
  - apply (proj1 (table_errors_reach_flat (L := offline_libraries) mismatched ValueError) H1).
  - apply (proj1 (proj2 (table_errors_reach_flat (L := offline_libraries)
                           mismatched ValueError)) eq_refl H1).
  - apply (proj2 (proj2 (table_errors_reach_flat (L := offline_libraries)
                           short_distmu ValueError)) eq_refl H2).
Defined.

(** X5: [center] raises exactly what [flat_2d] raises or, once [flat_2d]
    has returned, what [posterior_max] raises on its array.  Nothing else
    makes it raise: the dust lookup never does. *)
Theorem center_raises_iff `{L : Libraries} (self : Localization) (e : exn) :
  center self = Raise e <->
  flat_2d self = Raise e \/
  exists prob, flat_2d self = Ok prob /\ posterior_max prob = Raise e.
Proof.
  unfold center. destruct (flat_2d self) as [prob|e1]; simpl.
  - destruct (posterior_max prob) as [coord|e2] eqn:Hpeak; simpl.
    + split; [discriminate|].
      intros [H|(prob' & H & Hp)]; [discriminate|].
      inversion H. subst prob'. congruence.
    + split.
      * intros H. right. exists prob. split; [reflexivity|]. congruence.
      * intros [H|(prob' & H & Hp)]; [discriminate|].
        inversion H. subst prob'. congruence.
  - split.
    + intros H. left. inversion H. reflexivity.
    + intros [H|(prob' & H & _)]; [inversion H; reflexivity|discriminate].
Qed.

Lemma Reference_uniform_sky_flat_2d peak sfd :
  exists a, flat_2d (L := Reference.libraries peak sfd) uniform_sky = Ok a.
Proof.
  assert (Hlen : Z.of_nat (col_len (FloatCol
            ((fun x => (x * Reference.pixarea 9)%float)
               <$> Reference.raster_column 9 (uniq uniform_sky)
                     (probdensity uniform_sky)))) = TileIndex.npix 9).
  { cbv [col_len]. rewrite length_fmap. apply raster_column_npix. }
  eapply (flat_2d_returns (L := Reference.libraries peak sfd) uniform_sky).
  - exact uniform_sky_table_2d.
  - apply Reference_rasterize_2d; [lia|discriminate|reflexivity].
  - apply getitem_head.
  - exact Hlen.
  - intros j Hj. apply (Reference_ring2nest_range 512 _ j Hlen). lia.
Qed.

Lemma center_raises_iff_witness :
  center (L := offline_libraries) mismatched = Raise ValueError /\
  center (L := no_peak_libraries) uniform_sky = Raise ValueError.
Proof.
  split.
  - apply (proj2 (center_raises_iff (L := offline_libraries) mismatched ValueError)).
    left. reflexivity.
  - apply (proj2 (center_raises_iff (L := no_peak_libraries) uniform_sky ValueError)).
    right.
    destruct (Reference_uniform_sky_flat_2d (fun _ => Raise ValueError)
                (Ok (fun _ => Ok 0.03125%float))) as [prob Hprob].
    exists prob. split; [exact Hprob|reflexivity].
Defined.

(** X6: once [flat_2d] and [posterior_max] have returned, [center]
    returns a dict with exactly the keys [ra], [dec], [gal_lat],
    [gal_lon], [ebv]; the first four are the coordinates of the maximum,
    and [ebv] is the value of the dust lookup when the lookup returns. *)
Theorem center_returns `{L : Libraries} (self : Localization)
    (prob : Column) (coord : SkyCoord) :
  flat_2d self = Ok prob -> posterior_max prob = Ok coord ->
  exists center_info : gmap string (option float),
    center self = Ok center_info /\
    dom center_info = ({["ra"; "dec"; "gal_lat"; "gal_lon"; "ebv"]} : gset string) /\
    center_info !! "ra"%string = Some (Some (ra_deg coord)) /\
    center_info !! "dec"%string = Some (Some (dec_deg coord)) /\
    center_info !! "gal_lat"%string = Some (Some (galactic_b_deg coord)) /\
    center_info !! "gal_lon"%string = Some (Some (galactic_l_deg coord)) /\
    (forall ebv, dust_ebv coord = Ok ebv -> center_info !! "ebv"%string = Some (Some ebv)).
Proof.
  intros Hprob Hcoord. eexists. split.
  - unfold center. rewrite Hprob. simpl. rewrite Hcoord. simpl. reflexivity.
  - split; [rewrite !dom_insert_L, dom_empty_L; set_solver|].
    repeat split; try by simplify_map_eq.
    intros ebv Hebv. rewrite Hebv. simpl. by simplify_map_eq.
Qed.

Lemma center_returns_witness :
  exists center_info : gmap string (option float),
    center (L := online_libraries) uniform_sky = Ok center_info /\
    dom center_info = ({["ra"; "dec"; "gal_lat"; "gal_lon"; "ebv"]} : gset string) /\
    center_info !! "ra"%string = Some (Some 45%float) /\
    center_info !! "ebv"%string = Some (Some 0.03125%float).
Proof.
  destruct (Reference_uniform_sky_flat_2d (fun _ => Ok peak0)
              (Ok (fun _ => Ok 0.03125%float))) as [prob Hprob].
  destruct (center_returns (L := online_libraries) uniform_sky prob peak0 Hprob eq_refl)
    as (info & Hc & Hdom & Hra & _ & _ & _ & Hebv).
  exists info. split; [exact Hc|]. split; [exact Hdom|]. split; [exact Hra|].
  apply Hebv. reflexivity.
Defined.

(** X7: [table_2d], [flat_2d] and [center] read only [uniq] and
    [probdensity]: two maps that agree on these two arrays have the same
    2D table, the same flat 2D array and the same center, whatever their
    distance arrays and other columns. *)
Theorem views_2d_ignore_distance `{L : Libraries} (self other : Localization) :
  uniq self = uniq other -> probdensity self = probdensity other ->
  table_2d self = table_2d other /\
  flat_2d self = flat_2d other /\
  center self = center other.
Proof.
  intros Hu Hp.
  assert (Ht : table_2d self = table_2d other).
  { unfold table_2d. rewrite Hu, Hp. reflexivity. }
  assert (Hf : flat_2d self = flat_2d other).
  { unfold flat_2d. rewrite Ht. reflexivity. }
  split; [exact Ht|]. split; [exact Hf|].
  unfold center. rewrite Hf. reflexivity.
Qed.

Lemma views_2d_ignore_distance_witness :
  is_3d uniform_sky = false /\ is_3d uniform_sky_3d = true /\
  flat_2d (L := offline_libraries) uniform_sky_3d
  = flat_2d (L := offline_libraries) uniform_sky /\
  center (L := offline_libraries) uniform_sky_3d
  = center (L := offline_libraries) uniform_sky.
Proof.
  split; [reflexivity|]. split; [reflexivity|].
  apply (proj2 (views_2d_ignore_distance (L := offline_libraries)
                  uniform_sky_3d uniform_sky eq_refl eq_refl)).
Defined.

(** ** The shape of the flat views *)

Section Shape.
Context `{L : Libraries}.

Lemma reorder_list_nside {A} (m out : list A) :
  reorder_list m NESTED RING = Ok out ->
  length out = length m /\
  exists n, isnsideok_nest n = true /\ Z.of_nat (length m) = 12 * n * n.
Proof.
  intros H. split; [apply (reorder_list_ring m out H)|].
  unfold reorder_list, npix2nside in H.
  destruct (_ || _) in H; [discriminate|].
  destruct (isnpixok (Z.of_nat (length m))) eqn:Hok; [|discriminate].
  simpl in H.
  destruct (isnsideok_nest (Z.sqrt (Z.of_nat (length m) / 12))) eqn:Hn; [|discriminate].
  exists (Z.sqrt (Z.of_nat (length m) / 12)). split; [exact Hn|].
  unfold isnpixok in Hok. apply Z.eqb_eq in Hok. lia.
Qed.

Lemma reorder_nside (m out : Column) :
  reorder m NESTED RING = Ok out ->
  col_len out = col_len m /\
  exists n, isnsideok_nest n = true /\ Z.of_nat (col_len m) = 12 * n * n.
Proof.
  destruct m as [l|l]; simpl; intros H; apply fmap_Ok in H as (r & H & ->);
    apply (reorder_list_nside _ _ H).
Qed.

Lemma reorder_seq_four (c1 c2 c3 c4 : Column) (arrs : list Column) :
  reorder_seq [c1; c2; c3; c4] NESTED RING = Ok arrs ->
  col_len c2 = col_len c1 /\ col_len c3 = col_len c1 /\ col_len c4 = col_len c1 /\
  exists a1 a2 a3 a4,
    arrs = [a1; a2; a3; a4] /\
    reorder c1 NESTED RING = Ok a1 /\ reorder c2 NESTED RING = Ok a2 /\
    reorder c3 NESTED RING = Ok a3 /\ reorder c4 NESTED RING = Ok a4.
Proof.
  unfold reorder_seq. intros H.
  destruct (forallb _ _) eqn:Hlen in H; [|discriminate].
  simpl in Hlen. rewrite !andb_true_iff, !Nat.eqb_eq in Hlen.
  destruct Hlen as (H2 & H3 & H4 & _).
  repeat (split; [assumption|]).
  apply mapM_Ok in H.
  inversion H as [|? a1 ? r1 Ha1 Hall1]; subst.
  inversion Hall1 as [|? a2 ? r2 Ha2 Hall2]; subst.
  inversion Hall2 as [|? a3 ? r3 Ha3 Hall3]; subst.
  inversion Hall3 as [|? a4 ? r4 Ha4 Hall4]; subst.
  inversion Hall4; subst.
  exists a1, a2, a3, a4. auto.
Qed.

End Shape.

(** X8: whatever [rasterize] returns, an array that [flat_2d] returns has
    a HEALPix length, [12 * n^2] for a power of two [n]; and what [flat]
    returns for a 3D map is a tuple of exactly four arrays, all of one
    such length. *)
Theorem flat_shape `{L : Libraries} (self : Localization) :
  (forall a, flat_2d self = Ok a ->
     exists n, isnsideok_nest n = true /\ Z.of_nat (col_len a) = 12 * n * n) /\
  (forall arrs, is_3d self = true -> flat self = Ok arrs ->
     exists a1 a2 a3 a4 n,
       arrs = [a1; a2; a3; a4] /\ isnsideok_nest n = true /\
       Forall (fun a => Z.of_nat (col_len a) = 12 * n * n) arrs).
Proof.
  split.
  - intros a Ha. apply flat_2d_Ok in Ha as (t2 & t & nested & _ & _ & _ & Ha).
    apply reorder_nside in Ha as (Hlen & n & Hn & Hnpix).
    exists n. split; [exact Hn|]. rewrite Hlen. exact Hnpix.
  - intros arrs E3 H. unfold flat in H. rewrite E3, nside2order_nside in H.
    apply bind_Ok in H as (order & _ & H).
    apply bind_Ok in H as (t3 & _ & H).
    apply bind_Ok in H as (t & _ & H).
    apply bind_Ok in H as (prob & _ & H).
    apply bind_Ok in H as (mu & _ & H).
    apply bind_Ok in H as (sigma & _ & H).
    apply bind_Ok in H as (norm & _ & H).
    apply reorder_seq_four in H
      as (H2 & H3 & H4 & a1 & a2 & a3 & a4 & -> & Ha1 & Ha2 & Ha3 & Ha4).
    apply reorder_nside in Ha1 as (Hl1 & n & Hn & Hnpix).
    apply reorder_nside in Ha2 as (Hl2 & _).
    apply reorder_nside in Ha3 as (Hl3 & _).
    apply reorder_nside in Ha4 as (Hl4 & _).
    exists a1, a2, a3, a4, n. split; [reflexivity|]. split; [exact Hn|].
    repeat apply Forall_cons_2; [| | | |constructor]; congruence.
Qed.

Lemma flat_shape_witness :
  (exists a n, flat_2d (L := offline_libraries) uniform_sky = Ok a /\
               isnsideok_nest n = true /\ Z.of_nat (col_len a) = 12 * n * n) /\
  (exists a1 a2 a3 a4,
     flat (L := offline_libraries) uniform_sky_3d = Ok [a1; a2; a3; a4]).
Proof.
  split.
  - destruct uniform_sky_flat_2d as [a Ha].
    destruct (proj1 (flat_shape (L := offline_libraries) uniform_sky) a Ha)
      as (n & Hn & Hlen).
    exists a, n. auto.
  - destruct uniform_sky_3d_flat as [arrs Harrs].
    destruct (proj2 (flat_shape (L := offline_libraries) uniform_sky_3d) arrs eq_refl Harrs)
      as (a1 & a2 & a3 & a4 & n & Heq & _).
    exists a1, a2, a3, a4. rewrite <- Heq. exact Harrs.
Defined.

(** ** The instance property and the query expression of [is_3d] *)

(** X9: the class-level expression of [is_3d] is never NULL and has, on
    every row, the truth value of the instance property; a query filtered
    by it selects exactly the rows whose [is_3d] is true, in order. *)
Theorem is_3d_expression_agrees (rows : list Localization) :
  (forall row, is_3d_expression row = Some (is_3d row)) /\
  sql_filter is_3d_expression rows = filter (fun row => is_3d row = true) rows.
Proof.
  assert (Hrow : forall row, is_3d_expression row = Some (is_3d row)).
  { intros row. unfold is_3d_expression, is_3d, isnot_None.
    destruct (distmu row), (distsigma row), (distnorm row); reflexivity. }
  split; [exact Hrow|].
  unfold sql_filter. induction rows as [|row rows IH]; [reflexivity|].
  rewrite !filter_cons, IH.
  destruct (decide (is_3d_expression row = Some true)) as [He|He];
    destruct (decide (is_3d row = true)) as [Hp|Hp]; try reflexivity.
  - rewrite Hrow in He. inversion He. contradiction.
  - rewrite Hrow, Hp in He. contradiction.
Qed.

Lemma is_3d_expression_agrees_witness :
  is_3d_expression short_distmu = Some true /\
  sql_filter is_3d_expression [uniform_sky; uniform_sky_3d; short_distmu]
  = [uniform_sky_3d; short_distmu].
Proof.
  destruct (is_3d_expression_agrees [uniform_sky; uniform_sky_3d; short_distmu])
    as [Hrow Hfilter].
  split; [apply Hrow|]. rewrite Hfilter. reflexivity.
Defined.

(** ** Adding and deleting tiles *)

Lemma insert_rows_Ok (rows tbl tbl' : list LocalizationTile.t) :
  insert_rows tbl rows = Ok tbl' -> tbl' = tbl ++ rows.
Proof.
  revert tbl. induction rows as [|r rows IH]; simpl; intros tbl H.
  - inversion H. rewrite app_nil_r. reflexivity.
  - apply bind_Ok in H as (tbl1 & H1 & H).
    apply insert_Ok in H1 as (-> & _). apply IH in H. rewrite H, <- app_assoc.
    reflexivity.
Qed.

(** X11: adding the tiles of a localization that has none in the table
    and then deleting that localization gives the table back: the cascade
    removes all of its tiles and no other row. *)
Theorem insert_then_delete_localization (tbl rows tbl' : list LocalizationTile.t)
    (lid : Z) :
  Forall (fun r => LocalizationTile.localization_id r <> lid) tbl ->
  Forall (fun r => LocalizationTile.localization_id r = lid) rows ->
  insert_rows tbl rows = Ok tbl' ->
  LocalizationTile.delete_localization tbl' lid = tbl.
Proof.
  intros Hother Hown Hins. apply insert_rows_Ok in Hins. subst tbl'.
  unfold LocalizationTile.delete_localization. rewrite filter_app.
  replace (filter (fun r => LocalizationTile.localization_id r <> lid) rows) with
    (@nil LocalizationTile.t).
  - rewrite app_nil_r. clear Hown. induction Hother as [|r tbl Hr _ IH]; [reflexivity|].
    rewrite filter_cons_True by exact Hr. rewrite IH. reflexivity.
  - clear Hother. induction Hown as [|r rows Hr _ IH]; [reflexivity|].
    rewrite filter_cons_False by (intros H; contradiction). exact IH.
Qed.

Lemma insert_then_delete_localization_witness :
  insert_rows [other_tile] duplicate_tiles = Ok ([other_tile] ++ duplicate_tiles) /\
  LocalizationTile.delete_localization ([other_tile] ++ duplicate_tiles) 7 = [other_tile].
Proof.
  assert (Hins : insert_rows [other_tile] duplicate_tiles
                 = Ok ([other_tile] ++ duplicate_tiles)) by (vm_compute; reflexivity).
  split; [exact Hins|].
  apply (insert_then_delete_localization [other_tile] duplicate_tiles _ 7).
  - repeat constructor. simpl. lia.
  - repeat constructor.
  - exact Hins.
Defined.
